(** * basedai extrinsics: registration gate, weight setting and the ttl guard

    A shallow embedding of [basedai/extrinsics/root.py] and
    [basedai/extrinsics/set_weights.py].  The chain client ([basednode]),
    the wallet, the interactive prompt and [weight_utils] are collaborators
    whose code is not part of the two files: they are taken as records of
    operations over an arbitrary chain state, each call of which may return
    or raise.  Every call is recorded, in program order, in a trace of
    events, so that "is never called", "exactly once" and "before" are
    statements about that trace. *)

From Stdlib Require Import ZArith List String Bool Lia QArith DecimalString.
From Stdlib Require Import Floats.SpecFloat.
Import ListNotations.

Set Implicit Arguments.

(** ** Python values the two files exchange *)

Module Py.

(** Exceptions: the instances of Python's [Exception] class, which is what
    [except Exception] catches and what a collaborator may raise. *)
Inductive exn : Type :=
| ValueError (msg : string)
| IndexError (msg : string)
| OtherError (cls : string) (msg : string).

(** [str(e)] *)
Definition str (e : exn) : string :=
  match e with
  | ValueError m => m
  | IndexError m => m
  | OtherError _ m => m
  end.

(** A call either returns a value or raises. *)
Inductive outcome (A : Type) : Type :=
| Returned (a : A)
| Raised (e : exn).
Arguments Raised {A} e.

Definition is_raised {A} (o : outcome A) : bool :=
  match o with Returned _ => false | Raised _ => true end.

(** ["{}".format(n)] for an integer. *)
Definition format_int (z : Z) : string :=
  NilZero.string_of_int (Z.to_int z).

End Py.
Export Py.

(** ** Tensors *)

Module Torch.

(** A [torch.float32] scalar: sign, mantissa, exponent, or zero,
    infinity, NaN. *)
Definition float32 : Type := spec_float.
Definition prec32 : Z := 24.
Definition emax32 : Z := 128.

Definition f32_zero : float32 := S754_zero false.

(** [w > 0] on floats; false on NaN. *)
Definition gt0 (w : float32) : bool := SFltb f32_zero w.

(** One-dimensional tensors. *)
Definition FloatTensor : Type := list float32.
Definition LongTensor : Type := list Z.

(** [torch.argwhere(weights > 0).squeeze(dim=1)]: the positions, in
    increasing order, of the entries that are > 0. *)
Fixpoint argwhere_gt0_from (i : nat) (weights : FloatTensor) : list nat :=
  match weights with
  | [] => []
  | w :: rest =>
      if gt0 w then i :: argwhere_gt0_from (S i) rest
      else argwhere_gt0_from (S i) rest
  end.

Definition argwhere_gt0 (weights : FloatTensor) : list nat :=
  argwhere_gt0_from 0 weights.

Definition index_error (i size : nat) : exn :=
  IndexError ("index " ++ format_int (Z.of_nat i)
              ++ " is out of bounds for dimension 0 with size "
              ++ format_int (Z.of_nat size))%string.

(** [t[idx]] for an index tensor: raises [IndexError] at the first
    position that is out of range. *)
Fixpoint index_select {A : Type} (t : list A) (idx : list nat)
  : outcome (list A) :=
  match idx with
  | [] => Returned []
  | i :: rest =>
      match nth_error t i with
      | None => Raised (index_error i (List.length t))
      | Some x =>
          match index_select t rest with
          | Returned xs => Returned (x :: xs)
          | Raised e => Raised e
          end
      end
  end.

(** [t.numel()] *)
Definition numel {A : Type} (t : list A) : nat := List.length t.

End Torch.
Export Torch.

(** ** Events *)

(** The question put to [Confirm.ask]; the rendering of the numbers is
    console formatting and is left out. *)
Inductive prompt_text : Type :=
| AskSetWeights (weight_vals : list Z) (weight_uids : list Z)
| AskSetRootWeights (formatted_weights : FloatTensor) (netuids : LongTensor)
| AskMemorize.

(** What is printed on [basedai.__console__]. *)
Inductive console_msg : Type :=
| MsgAlreadyMemorized
| MsgFailed (detail : string)
| MsgMemorized
| MsgMemoryCircuitNotFound
| MsgRawToNormalized (weights formatted_weights : FloatTensor)
| MsgResponse (success : bool) (error_message : string)
| MsgFinalized.

Inductive status_msg : Type :=
| StatusCreatingLink
| StatusSettingWeights (network : string)
| StatusSettingRootWeights (network : string).

Inductive log_msg : Type :=
| LogSuccessFinalized (success : bool)
| LogWarningFailed (detail : string).

Inductive event : Type :=
| EvUnlockPersonalkey (o : outcome unit)
| EvConnect (endpoint : string) (o : outcome unit)
| EvIsRegistered (netuid : Z) (ss58 : string) (o : outcome bool)
| EvConfirm (q : prompt_text) (o : outcome bool)
| EvDoRootRegister (wait_for_inclusion wait_for_finalization : bool)
    (o : outcome (bool * string))
| EvMinAllowedWeights (netuid : Z) (o : outcome Z)
| EvMaxWeightLimit (netuid : Z) (o : outcome float32)
| EvNormalizeMaxWeight (x : FloatTensor) (limit : float32)
    (o : outcome FloatTensor)
| EvConvertForEmit (uids : LongTensor) (weights : FloatTensor)
    (o : outcome (list Z * list Z))
| EvDoSetWeights (netuid : Z) (uids vals : list Z) (version_key : Z)
    (wait_for_finalization wait_for_inclusion : bool)
    (o : outcome (bool * string))
| EvConsole (m : console_msg)
| EvStatus (m : status_msg)
| EvLog (m : log_msg)
| EvSleep.

Definition trace : Type := list event.

(** A network submission: a call of [_do_root_register] or of
    [_do_set_weights]. *)
Definition is_submission (e : event) : bool :=
  match e with
  | EvDoRootRegister _ _ _ => true
  | EvDoSetWeights _ _ _ _ _ _ _ => true
  | _ => false
  end.

Definition is_registration_query (e : event) : bool :=
  match e with
  | EvIsRegistered _ _ _ => true
  | _ => false
  end.

Definition is_declined (e : event) : bool :=
  match e with
  | EvConfirm _ (Returned false) => true
  | _ => false
  end.

Definition submissions (tr : trace) : nat :=
  List.length (filter is_submission tr).

(** The events that follow the first network submission of a trace. *)
Fixpoint after_submission (tr : trace) : trace :=
  match tr with
  | [] => []
  | e :: rest => if is_submission e then rest else after_submission rest
  end.

(** The events that precede the first network submission of a trace. *)
Fixpoint before_submission (tr : trace) : trace :=
  match tr with
  | [] => []
  | e :: rest => if is_submission e then [] else e :: before_submission rest
  end.

(** ** Collaborators *)

Record wallet : Type := {
  wallet_name : string;
  computekey_ss58_address : string
}.

Section Collaborators.

(** The state of everything outside the two files: the chain, the key
    files, the terminal. *)
Variable St : Type.

(** The methods of a [basedai.basednode] object the two files use. *)
Record Basednode : Type := {
  chain_endpoint : string;
  network : string;
  is_computekey_registered : Z -> string -> St -> outcome bool * St;
  _do_root_register :
    wallet -> bool -> bool -> St -> outcome (bool * string) * St;
  _do_set_weights :
    wallet -> Z -> list Z -> list Z -> Z -> bool -> bool -> St ->
    outcome (bool * string) * St;
  min_allowed_weights : Z -> St -> outcome Z * St;
  max_weight_limit : Z -> St -> outcome float32 * St
}.

(** The rest of the package and of the process environment. *)
Record Host : Type := {
  (** [wallet.personalkey]: unlocks the key, may raise *)
  personalkey : wallet -> St -> outcome unit * St;
  (** [rich.prompt.Confirm.ask] *)
  Confirm_ask : prompt_text -> St -> outcome bool * St;
  (** [basedai.basednode(endpoint)] *)
  basedai_basednode : string -> St -> outcome Basednode * St;
  (** [basedai.utils.weight_utils.normalize_max_weight] *)
  normalize_max_weight : FloatTensor -> float32 -> outcome FloatTensor;
  (** [basedai.utils.weight_utils.convert_weights_and_uids_for_emit] *)
  convert_weights_and_uids_for_emit :
    LongTensor -> FloatTensor -> outcome (list Z * list Z)
}.

End Collaborators.

(** ** The monad of the two files: state, exceptions, trace *)

Section Exec.

Variable St : Type.

Definition M (A : Type) : Type := St -> outcome A * St * trace.

Definition ret {A} (a : A) : M A := fun s => (Returned a, s, []).

Definition raise {A} (e : exn) : M A := fun s => (Raised e, s, []).

Definition bind {A B} (m : M A) (f : A -> M B) : M B :=
  fun s =>
    match m s with
    | (Returned a, s1, t1) =>
        match f a s1 with
        | (o, s2, t2) => (o, s2, t1 ++ t2)
        end
    | (Raised e, s1, t1) => (Raised e, s1, t1)
    end.

(** [try: body except Exception as e: handler(e)] *)
Definition try_except {A} (body : M A) (handler : exn -> M A) : M A :=
  fun s =>
    match body s with
    | (Returned a, s1, t1) => (Returned a, s1, t1)
    | (Raised e, s1, t1) =>
        match handler e s1 with
        | (o, s2, t2) => (o, s2, t1 ++ t2)
        end
    end.

(** A call of a collaborator, recorded with its outcome. *)
Definition perform {A} (call : St -> outcome A * St)
  (ev : outcome A -> event) : M A :=
  fun s => match call s with (o, s1) => (o, s1, [ev o]) end.

(** A call of a pure helper, recorded with its outcome. *)
Definition helper {A} (r : outcome A) (ev : outcome A -> event) : M A :=
  fun s => (r, s, [ev r]).

(** An effect on the terminal that returns nothing. *)
Definition emit (e : event) : M unit := fun s => (Returned tt, s, [e]).

(** Evaluation of an expression that may raise, without a call. *)
Definition eval {A} (r : outcome A) : M A := fun s => (r, s, []).

End Exec.

Arguments ret {St A} a.
Arguments raise {St A} e.
Arguments emit {St} e.
Arguments eval {St A} r.
Arguments helper {St A} r ev.

Declare Scope py_scope.
Delimit Scope py_scope with py.
Notation "x <- m ;; k" := (bind m (fun x => k))
  (at level 61, m at next level, right associativity) : py_scope.
Notation "' pat <- m ;; k" := (bind m (fun x => match x with pat => k end))
  (at level 61, pat pattern, m at next level, right associativity) : py_scope.
Notation "m ;; k" := (bind m (fun _ => k))
  (at level 61, right associativity) : py_scope.

Definition result {St A} (r : outcome A * St * trace) : outcome A :=
  fst (fst r).
Definition final {St A} (r : outcome A * St * trace) : St :=
  snd (fst r).
Definition events {St A} (r : outcome A * St * trace) : trace :=
  snd r.

(** Forget the value of an outcome (for calls whose value is an object). *)
Definition void {A} (o : outcome A) : outcome unit :=
  match o with
  | Returned _ => Returned tt
  | Raised e => Raised e
  end.

(** ** basedai/extrinsics/root.py *)

Module Root.
Section Root.

Variable St : Type.
Variable host : Host St.

Local Open Scope py_scope.

(** [root_register_extrinsic].  The value is [Some b] for [return b] and
    [None] where control reaches the end of the function without a
    [return]. *)
Definition root_register_extrinsic (basednode : Basednode St) (w : wallet)
  (wait_for_inclusion wait_for_finalization prompt : bool)
  : M St (option bool) :=
  perform (personalkey host w) EvUnlockPersonalkey ;;
  is_registered <-
    perform (is_computekey_registered basednode 0 (computekey_ss58_address w))
            (EvIsRegistered 0 (computekey_ss58_address w)) ;;
  if is_registered : bool then
    emit (EvConsole MsgAlreadyMemorized) ;;
    ret (Some true)
  else
    let submit : M St (option bool) :=
      emit (EvStatus StatusCreatingLink) ;;
      ' (success, err_msg) <-
        perform (_do_root_register basednode w
                   wait_for_inclusion wait_for_finalization)
                (EvDoRootRegister wait_for_inclusion wait_for_finalization) ;;
      if negb (Bool.eqb success true) || Bool.eqb success false then
        emit (EvConsole (MsgFailed err_msg)) ;;
        emit EvSleep ;;
        ret None
      else
        is_registered <-
          perform (is_computekey_registered basednode 0
                     (computekey_ss58_address w))
                  (EvIsRegistered 0 (computekey_ss58_address w)) ;;
        if is_registered : bool then
          emit (EvConsole MsgMemorized) ;;
          ret (Some true)
        else
          emit (EvConsole MsgMemoryCircuitNotFound) ;;
          ret None
    in
    if prompt then
      answer <- perform (Confirm_ask host AskMemorize) (EvConfirm AskMemorize) ;;
      if negb answer then ret (Some false) else submit
    else submit.

(** The [ValueError] of the minimum-weights check. *)
Definition min_weights_error (min_allowed : Z) (got : nat) : exn :=
  ValueError ("The minimum number of weights required to set weights is "
              ++ format_int min_allowed ++ ", got "
              ++ format_int (Z.of_nat got))%string.

(** [set_root_weights_extrinsic], from the tensors [netuids] and
    [weights] (a list argument is first turned into the tensor of its
    elements). *)
Definition set_root_weights_extrinsic (basednode : Basednode St) (w : wallet)
  (netuids : LongTensor) (weights : FloatTensor) (version_key : Z)
  (wait_for_inclusion wait_for_finalization prompt : bool) : M St bool :=
  min_allowed <-
    perform (min_allowed_weights basednode 0) (EvMinAllowedWeights 0) ;;
  max_limit <-
    perform (max_weight_limit basednode 0) (EvMaxWeightLimit 0) ;;
  let non_zero_weight_idx := argwhere_gt0 weights in
  non_zero_weight_uids <- eval (index_select netuids non_zero_weight_idx) ;;
  non_zero_weights <- eval (index_select weights non_zero_weight_idx) ;;
  if (Z.of_nat (numel non_zero_weights) <? min_allowed)%Z then
    raise (min_weights_error min_allowed (numel non_zero_weights))
  else
    formatted_weights <-
      helper (normalize_max_weight host weights max_limit)
             (EvNormalizeMaxWeight weights max_limit) ;;
    emit (EvConsole (MsgRawToNormalized weights formatted_weights)) ;;
    let submit : M St bool :=
      emit (EvStatus (StatusSettingRootWeights (network basednode))) ;;
      try_except
        (' (weight_uids, weight_vals) <-
           helper (convert_weights_and_uids_for_emit host netuids weights)
                  (EvConvertForEmit netuids weights) ;;
         ' (success, error_message) <-
           perform (_do_set_weights basednode w 0 weight_uids weight_vals
                      version_key wait_for_finalization wait_for_inclusion)
                   (EvDoSetWeights 0 weight_uids weight_vals version_key
                      wait_for_finalization wait_for_inclusion) ;;
         emit (EvConsole (MsgResponse success error_message)) ;;
         if negb wait_for_finalization && negb wait_for_inclusion then
           ret true
         else if success : bool then
           emit (EvConsole MsgFinalized) ;;
           emit (EvLog (LogSuccessFinalized success)) ;;
           ret true
         else
           emit (EvConsole (MsgFailed error_message)) ;;
           emit (EvLog (LogWarningFailed error_message)) ;;
           ret false)
        (fun e =>
           emit (EvConsole (MsgFailed (str e))) ;;
           emit (EvLog (LogWarningFailed (str e))) ;;
           ret false)
    in
    if prompt then
      answer <-
        perform (Confirm_ask host (AskSetRootWeights formatted_weights netuids))
                (EvConfirm (AskSetRootWeights formatted_weights netuids)) ;;
      if negb answer then ret false else submit
    else submit.

End Root.
End Root.

(** ** multiprocessing.Process, as the guard uses it *)

Module Multiprocessing.

(** How a process stopped. *)
Inductive exit_status (R : Type) : Type :=
| Completed (r : R)
| Killed.
Arguments Killed {R}.

(** The life of a process handle.  [Stopped]: no longer running and not
    yet waited for; [Joined]: waited for, nothing of it is left. *)
Inductive proc_state (R : Type) : Type :=
| Initial
| Running
| Stopped (h : exit_status R)
| Joined (h : exit_status R).
Arguments Initial {R}.
Arguments Running {R}.

(** A process: what its target does when it runs to its end, the time
    in milliseconds the target needs for that ([None] when it never
    ends, as a network call that hangs), and the state of the handle. *)
Record Process (R : Type) : Type := {
  target_run : R;
  target_time : option nat;
  state : proc_state R
}.

Inductive proc_event : Type :=
| PStart
| PJoin (timeout : option Z)
| PIsAlive (alive : bool)
| PTerminate.

Section Ops.

Variable R : Type.

(** [multiprocessing.Process(target=..., args=...)] *)
Definition Process_new (run : R) (time : option nat) : Process R :=
  {| target_run := run; target_time := time; state := Initial |}.

Definition set_state (p : Process R) (st : proc_state R) : Process R :=
  {| target_run := target_run p; target_time := target_time p; state := st |}.

(** Does a target that needs [time] end before [timeout] seconds have
    elapsed? *)
Definition ends_within (time : option nat) (timeout : Z) : bool :=
  match time with
  | Some d => (Z.of_nat d <? 1000 * timeout)%Z
  | None => false
  end.

(** An operation on the handle; [None] when the call does not return
    (it waits for ever, or the handle is not in a state for it). *)
Definition G (A : Type) : Type :=
  Process R -> option (A * Process R * list proc_event).

Definition gret {A} (a : A) : G A := fun p => Some (a, p, []).

Definition gbind {A B} (m : G A) (f : A -> G B) : G B :=
  fun p =>
    match m p with
    | Some (a, p1, t1) =>
        match f a p1 with
        | Some (b, p2, t2) => Some (b, p2, t1 ++ t2)
        | None => None
        end
    | None => None
    end.

(** [process.start()] *)
Definition start : G unit :=
  fun p =>
    match state p with
    | Initial => Some (tt, set_state p Running, [PStart])
    | _ => None
    end.

(** [process.join(timeout)]: waits until the process has ended or the
    timeout has elapsed. *)
Definition join (timeout : option Z) : G unit :=
  fun p =>
    match state p with
    | Initial => None
    | Running =>
        match timeout with
        | Some t =>
            if ends_within (target_time p) t
            then Some (tt, set_state p (Joined (Completed (target_run p))),
                       [PJoin timeout])
            else Some (tt, p, [PJoin timeout])
        | None =>
            match target_time p with
            | Some _ =>
                Some (tt, set_state p (Joined (Completed (target_run p))),
                      [PJoin timeout])
            | None => None
            end
        end
    | Stopped h => Some (tt, set_state p (Joined h), [PJoin timeout])
    | Joined _ => Some (tt, p, [PJoin timeout])
    end.

(** [process.is_alive()] *)
Definition is_alive : G bool :=
  fun p =>
    match state p with
    | Initial => Some (false, p, [PIsAlive false])
    | Running => Some (true, p, [PIsAlive true])
    | Stopped h => Some (false, set_state p (Joined h), [PIsAlive false])
    | Joined _ => Some (false, p, [PIsAlive false])
    end.

(** [process.terminate()] *)
Definition terminate : G unit :=
  fun p =>
    match state p with
    | Initial => None
    | Running => Some (tt, set_state p (Stopped Killed), [PTerminate])
    | _ => Some (tt, p, [PTerminate])
    end.

End Ops.

Arguments start {R}.
Arguments join {R} timeout.
Arguments is_alive {R}.
Arguments terminate {R}.
Arguments gret {R A} a.

End Multiprocessing.

Declare Scope proc_scope.
Delimit Scope proc_scope with proc.
Notation "x <- m ;; k" := (Multiprocessing.gbind m (fun x => k))
  (at level 61, m at next level, right associativity) : proc_scope.
Notation "m ;; k" := (Multiprocessing.gbind m (fun _ => k))
  (at level 61, right associativity) : proc_scope.

(** ** basedai/extrinsics/set_weights.py *)

Module SetWeights.
Section SetWeights.

Variable St : Type.
Variable host : Host St.

Local Open Scope py_scope.

(** [set_weights_extrinsic], from the tensors [uids] and [weights]. *)
Definition set_weights_extrinsic (basednode_endpoint : string) (w : wallet)
  (netuid : Z) (uids : LongTensor) (weights : FloatTensor) (version_key : Z)
  (wait_for_inclusion wait_for_finalization prompt : bool) : M St bool :=
  basednode <-
    perform (basedai_basednode host basednode_endpoint)
            (fun o => EvConnect basednode_endpoint (void o)) ;;
  ' (weight_uids, weight_vals) <-
    helper (convert_weights_and_uids_for_emit host uids weights)
           (EvConvertForEmit uids weights) ;;
  let submit : M St bool :=
    emit (EvStatus (StatusSettingWeights (network basednode))) ;;
    try_except
      (' (success, error_message) <-
         perform (_do_set_weights basednode w netuid weight_uids weight_vals
                    version_key wait_for_finalization wait_for_inclusion)
                 (EvDoSetWeights netuid weight_uids weight_vals version_key
                    wait_for_finalization wait_for_inclusion) ;;
       if negb wait_for_finalization && negb wait_for_inclusion then
         ret true
       else if success : bool then
         emit (EvConsole MsgFinalized) ;;
         emit (EvLog (LogSuccessFinalized success)) ;;
         ret true
       else
         emit (EvConsole (MsgFailed error_message)) ;;
         emit (EvLog (LogWarningFailed error_message)) ;;
         ret false)
      (fun e =>
         emit (EvConsole (MsgFailed (str e))) ;;
         emit (EvLog (LogWarningFailed (str e))) ;;
         ret false)
  in
  if prompt then
    answer <-
      perform (Confirm_ask host (AskSetWeights weight_vals weight_uids))
              (EvConfirm (AskSetWeights weight_vals weight_uids)) ;;
    if negb answer then ret false else submit
  else submit.

(** [ttl_set_weights_extrinsic].  [s] is the state the worker starts in
    and [time] the time the worker needs. *)
Definition ttl_set_weights_extrinsic (basednode : Basednode St) (w : wallet)
  (netuid : Z) (uids : LongTensor) (weights : FloatTensor) (version_key : Z)
  (wait_for_inclusion wait_for_finalization prompt : bool) (ttl : Z)
  (s : St) (time : option nat)
  : option (bool * Multiprocessing.Process (outcome bool * St * trace)
            * list Multiprocessing.proc_event) :=
  let worker :=
    set_weights_extrinsic (chain_endpoint basednode) w netuid uids weights
      version_key wait_for_inclusion wait_for_finalization prompt in
  let process := Multiprocessing.Process_new (worker s) time in
  (Multiprocessing.start ;;
   Multiprocessing.join (Some ttl) ;;
   alive <- Multiprocessing.is_alive ;;
   if alive : bool then
     Multiprocessing.terminate ;;
     Multiprocessing.join None ;;
     Multiprocessing.gret false
   else
     Multiprocessing.gret true)%proc process.

End SetWeights.
End SetWeights.

(** ** weight_utils, from its description *)

Module WeightUtils.

Definition f32_mul : float32 -> float32 -> float32 := SFmul prec32 emax32.
Definition f32_div : float32 -> float32 -> float32 := SFdiv prec32 emax32.

(** The float [m * 2^e]. *)
Definition f32 (m e : Z) : float32 := binary_normalize prec32 emax32 m e false.

Definition f32_max (x : FloatTensor) : float32 :=
  fold_left (fun m w => if SFltb m w then w else m) x f32_zero.

(** Modelled from the spec: the body of
    [weight_utils.normalize_max_weight], which is not in the two files.
    "Each weight is rescaled so the largest original weight maps to
    maxWeightLimit, and all weights are linearly scaled by the same
    factor, then clipped to not exceed maxWeightLimit.  Degenerate case:
    if all weights are zero or the vector is empty, return the vector
    unchanged." *)
Definition normalize_max_weight (x : FloatTensor) (limit : float32)
  : outcome FloatTensor :=
  let largest := f32_max x in
  if SFltb f32_zero largest then
    let factor := f32_div limit largest in
    Returned (map (fun w => let v := f32_mul w factor in
                            if SFltb limit v then limit else v) x)
  else Returned x.

(** The rational a finite float stands for. *)
Definition f32_to_Q (w : float32) : option Q :=
  match w with
  | S754_zero _ => Some 0%Q
  | S754_finite s m e =>
      Some (inject_Z (if s then Z.neg m else Z.pos m) * Qpower 2 e)%Q
  | _ => None
  end.

(** Python's [round]: to the nearest integer, ties to the even one. *)
Definition round_half_even (q : Q) : Z :=
  let n := Qnum q in
  let d := Z.pos (Qden q) in
  let f := (n / d)%Z in
  match (2 * (n mod d) ?= d)%Z with
  | Lt => f
  | Gt => (f + 1)%Z
  | Eq => if Z.even f then f else (f + 1)%Z
  end.

Fixpoint insert_by_uid (p : Z * Z) (l : list (Z * Z)) : list (Z * Z) :=
  match l with
  | [] => [p]
  | q :: rest =>
      if (fst p <=? fst q)%Z then p :: l else q :: insert_by_uid p rest
  end.

Definition sort_by_uid (l : list (Z * Z)) : list (Z * Z) :=
  fold_right insert_by_uid [] l.

Fixpoint has_duplicates (uids : list Z) : bool :=
  match uids with
  | [] => false
  | u :: rest => existsb (Z.eqb u) rest || has_duplicates rest
  end.

Fixpoint to_rationals (x : FloatTensor) : option (list Q) :=
  match x with
  | [] => Some []
  | w :: rest =>
      match f32_to_Q w, to_rationals rest with
      | Some q, Some qs => Some (q :: qs)
      | _, _ => None
      end
  end.

Definition Q_max (qs : list Q) : Q :=
  fold_left (fun m q => if Qle_bool q m then m else q) qs 0%Q.

Definition U16_MAX : Z := 65535.

(** Modelled from the spec: the body of
    [weight_utils.convert_weights_and_uids_for_emit], which is not in the
    two files.  "Each real weight w is mapped to an integer in
    [0, 65535] via round(w / max(weights) * 65535) when weights are
    nonzero"; a zero vector is encoded as zeros; "the emitted pair list
    MUST be sorted by uid ascending"; duplicate uids, mismatched lengths
    and negative weights are invalid input. *)
Definition convert_weights_and_uids_for_emit (uids : LongTensor)
  (weights : FloatTensor) : outcome (list Z * list Z) :=
  if negb (List.length uids =? List.length weights)%nat then
    Raised (ValueError "uids and weights must have the same length")
  else if has_duplicates uids then
    Raised (ValueError "uids must be unique")
  else
    match to_rationals weights with
    | None => Raised (ValueError "weights must be finite")
    | Some qs =>
        if existsb (fun q => negb (Qle_bool 0 q)) qs then
          Raised (ValueError "weights must be non-negative")
        else
          let largest := Q_max qs in
          let vals :=
            if Qle_bool largest 0 then map (fun _ => 0%Z) qs
            else map (fun q =>
                        round_half_even (q / largest * inject_Z U16_MAX)%Q) qs
          in
          let pairs := sort_by_uid (combine uids vals) in
          Returned (map fst pairs, map snd pairs)
    end.

End WeightUtils.

(** ** A chain to run the flows on *)

Module Mock.

(** One participant, one root network. *)
Record chain : Type := {
  registered : bool;
  (** does the chain accept the extrinsics it is sent? *)
  accepting : bool;
  (** does a successful registration become visible to the status query? *)
  visible : bool;
  (** is the endpoint reachable? *)
  reachable : bool;
  (** what the user answers to the prompts to come *)
  answers : list bool;
  param_min_allowed_weights : Z;
  param_max_weight_limit : float32;
  (** the weight vectors the chain has been sent *)
  received : list (list Z * list Z)
}.

Definition with_registered (c : chain) (b : bool) : chain :=
  {| registered := b; accepting := accepting c; visible := visible c;
     reachable := reachable c; answers := answers c;
     param_min_allowed_weights := param_min_allowed_weights c;
     param_max_weight_limit := param_max_weight_limit c;
     received := received c |}.

Definition with_answers (c : chain) (a : list bool) : chain :=
  {| registered := registered c; accepting := accepting c;
     visible := visible c; reachable := reachable c; answers := a;
     param_min_allowed_weights := param_min_allowed_weights c;
     param_max_weight_limit := param_max_weight_limit c;
     received := received c |}.

Definition with_received (c : chain) (r : list (list Z * list Z)) : chain :=
  {| registered := registered c; accepting := accepting c;
     visible := visible c; reachable := reachable c; answers := answers c;
     param_min_allowed_weights := param_min_allowed_weights c;
     param_max_weight_limit := param_max_weight_limit c;
     received := r |}.

Definition unreachable : exn :=
  OtherError "ConnectionError" "endpoint unreachable".

Definition node : Basednode chain := {|
  chain_endpoint := "ws://127.0.0.1:9944";
  network := "local";
  is_computekey_registered := fun _ _ c => (Returned (registered c), c);
  _do_root_register := fun _ _ _ c =>
    if negb (reachable c) then (Raised unreachable, c)
    else if accepting c
         then (Returned (true, EmptyString),
               if visible c then with_registered c true else c)
         else (Returned (false, "rejected by the chain"%string), c);
  _do_set_weights := fun _ _ uids vals _ _ _ c =>
    if negb (reachable c) then (Raised unreachable, c)
    else if accepting c
         then (Returned (true, EmptyString),
               with_received c (received c ++ [(uids, vals)]))
         else (Returned (false, "rejected by the chain"%string), c);
  min_allowed_weights := fun _ c => (Returned (param_min_allowed_weights c), c);
  max_weight_limit := fun _ c => (Returned (param_max_weight_limit c), c)
|}.

Definition host : Host chain := {|
  personalkey := fun _ c => (Returned tt, c);
  Confirm_ask := fun _ c =>
    match answers c with
    | [] => (Returned true, c)
    | a :: rest => (Returned a, with_answers c rest)
    end;
  basedai_basednode := fun _ c => (Returned node, c);
  normalize_max_weight := WeightUtils.normalize_max_weight;
  convert_weights_and_uids_for_emit :=
    WeightUtils.convert_weights_and_uids_for_emit
|}.

Definition alice : wallet :=
  {| wallet_name := "alice"; computekey_ss58_address := "5Alice" |}.

(** A fresh chain: nobody registered, extrinsics accepted. *)
Definition fresh : chain := {|
  registered := false; accepting := true; visible := true; reachable := true;
  answers := [];
  param_min_allowed_weights := 1;
  param_max_weight_limit := WeightUtils.f32 1 0;
  received := []
|}.

Definition rejecting : chain := {|
  registered := false; accepting := false; visible := true; reachable := true;
  answers := [];
  param_min_allowed_weights := 1;
  param_max_weight_limit := WeightUtils.f32 1 0;
  received := []
|}.

(** The weight vector [(10, 1.0), (20, 3.0), (30, 0.0)]. *)
Definition netuids3 : LongTensor := [10; 20; 30]%Z.
Definition weights3 : FloatTensor :=
  [WeightUtils.f32 1 0; WeightUtils.f32 3 0; f32_zero].

(** The weight vector [(1, 0.0), (2, 0.5), (3, -1.0)]. *)
Definition netuids_mixed : LongTensor := [1; 2; 3]%Z.
Definition weights_mixed : FloatTensor :=
  [f32_zero; WeightUtils.f32 1 (-1); SFopp (WeightUtils.f32 1 0)].

End Mock.

(** ** Observations on traces *)

(** The registration queries made after the first submission. *)
Definition requeries (tr : trace) : nat :=
  List.length (filter is_registration_query (after_submission tr)).

(** The exception an event of the submission phase ended with: a raising
    call of the encoder or of [_do_set_weights]. *)
Definition raised_by (ev : event) : option exn :=
  match ev with
  | EvConvertForEmit _ _ (Raised e) => Some e
  | EvDoSetWeights _ _ _ _ _ _ (Raised e) => Some e
  | _ => None
  end.

(** The exception a call of [_do_set_weights] ended with. *)
Definition submission_raised (ev : event) : option exn :=
  match ev with
  | EvDoSetWeights _ _ _ _ _ _ (Raised e) => Some e
  | _ => None
  end.

(** The [with ... status(...)] block, hence the [try] in it, was entered. *)
Definition entered_status (ev : event) : bool :=
  match ev with
  | EvStatus _ => true
  | _ => false
  end.

(** The number of positive weights. *)
Definition positive_count (weights : FloatTensor) : nat :=
  List.length (filter gt0 weights).

(** ** Observations on the guard *)

(** The value a guarded call returns, if it returns. *)
Definition guard_value {R : Type}
  (g : option (bool * Multiprocessing.Process R
               * list Multiprocessing.proc_event)) : option bool :=
  match g with
  | Some (v, _, _) => Some v
  | None => None
  end.

(** [ttl] seconds elapse before a worker that needs [time] has ended. *)
Definition ttl_elapses_first (time : option nat) (ttl : Z) : Prop :=
  match time with
  | None => True
  | Some d => (1000 * ttl < Z.of_nat d)%Z
  end.

(** ** Further observations on traces *)

Definition outcome_exn {A : Type} (o : outcome A) : option exn :=
  match o with
  | Returned _ => None
  | Raised e => Some e
  end.

(** The exception a call ended with, whatever the call. *)
Definition event_raised (ev : event) : option exn :=
  match ev with
  | EvUnlockPersonalkey o => outcome_exn o
  | EvConnect _ o => outcome_exn o
  | EvIsRegistered _ _ o => outcome_exn o
  | EvConfirm _ o => outcome_exn o
  | EvDoRootRegister _ _ o => outcome_exn o
  | EvMinAllowedWeights _ o => outcome_exn o
  | EvMaxWeightLimit _ o => outcome_exn o
  | EvNormalizeMaxWeight _ _ o => outcome_exn o
  | EvConvertForEmit _ _ o => outcome_exn o
  | EvDoSetWeights _ _ _ _ _ _ o => outcome_exn o
  | EvConsole _ => None
  | EvStatus _ => None
  | EvLog _ => None
  | EvSleep => None
  end.

Definition is_confirm (ev : event) : bool :=
  match ev with
  | EvConfirm _ _ => true
  | _ => false
  end.

(** The number of times the user is asked. *)
Definition prompts (tr : trace) : nat :=
  List.length (filter is_confirm tr).


(** The answer to the last registration query of a trace. *)
Fixpoint last_registration_answer (tr : trace) : option (outcome bool) :=
  match tr with
  | [] => None
  | ev :: rest =>
      match last_registration_answer rest with
      | Some o => Some o
      | None =>
          match ev with
          | EvIsRegistered _ _ o => Some o
          | _ => None
          end
      end
  end.

(** The calls that [set_root_weights_extrinsic] makes inside its [try]
    block: the encoder and the submission. *)
Definition in_try_root (ev : event) : bool :=
  match ev with
  | EvConvertForEmit _ _ _ => true
  | EvDoSetWeights _ _ _ _ _ _ _ => true
  | _ => false
  end.

(** The last event of a trace. *)
Definition last_event (tr : trace) : event := last tr EvSleep.

(** The same host with another normalizer. *)
Definition with_normalizer {St : Type} (host : Host St)
  (normalize : FloatTensor -> float32 -> outcome FloatTensor) : Host St :=
  {| personalkey := personalkey host;
     Confirm_ask := Confirm_ask host;
     basedai_basednode := basedai_basednode host;
     normalize_max_weight := normalize;
     convert_weights_and_uids_for_emit :=
       convert_weights_and_uids_for_emit host |}.

(** An event of the root flow with the normalizer's output blanked in
    the three places that can show it: the normalizer's own return, the
    "Raw Weights -> Normalized weights" line and the prompt. *)
Definition hide_formatted (ev : event) : event :=
  match ev with
  | EvNormalizeMaxWeight x limit (Returned _) =>
      EvNormalizeMaxWeight x limit (Returned [])
  | EvConsole (MsgRawToNormalized weights _) =>
      EvConsole (MsgRawToNormalized weights [])
  | EvConfirm (AskSetRootWeights _ netuids) o =>
      EvConfirm (AskSetRootWeights [] netuids) o
  | _ => ev
  end.

(** * Properties *)

Unset Implicit Arguments.

(** ** The monad *)

Section MonadFacts.

Variable St : Type.

Lemma bind_ret_l (A B : Type) (a : A) (f : A -> M St B) (s : St) :
  bind (ret a) f s = f a s.
Proof. unfold bind, ret. destruct (f a s) as [[o s'] t]. reflexivity. Qed.

Lemma bind_raise (A B : Type) (e : exn) (f : A -> M St B) (s : St) :
  bind (raise e) f s = (Raised e, s, []).
Proof. reflexivity. Qed.

(** A [try] block never lets an exception out when its handler returns. *)
Lemma try_except_returns (A : Type) (body : M St A) (handler : exn -> M St A)
  (s : St) :
  (forall e s', exists a, result (handler e s') = Returned a) ->
  exists a, result (try_except body handler s) = Returned a.
Proof.
  intros Hh. unfold try_except, result.
  destruct (body s) as [[[a|e] s1] t1]; cbn.
  - now exists a.
  - specialize (Hh e s1). unfold result in Hh.
    destruct (handler e s1) as [[o s2] t2]; cbn in *. exact Hh.
Qed.

End MonadFacts.

(** ** The filter of the positive weights *)

Lemma gt0_le0 (w : float32) : SFleb w f32_zero = true -> gt0 w = false.
Proof.
  unfold gt0, SFleb, SFltb, f32_zero.
  destruct w as [sg | sg | | sg m e]; try destruct sg; cbn;
    intros H; try reflexivity; discriminate H.
Qed.

Lemma gt0_nan : gt0 S754_nan = false.
Proof. reflexivity. Qed.

Lemma index_select_argwhere_from (A : Type) (xs : list A)
  (weights : FloatTensor) :
  forall (pre : list A) (skipped : FloatTensor),
    List.length pre = List.length skipped ->
    List.length xs = List.length weights ->
    exists picked,
      index_select (pre ++ xs)
        (argwhere_gt0_from (List.length skipped) weights) = Returned picked
      /\ List.length picked = List.length (filter gt0 weights).
Proof.
  revert xs.
  induction weights as [|w rest IH]; intros xs pre skipped Hpre Hlen.
  - exists []. split; reflexivity.
  - destruct xs as [|x xs']; [discriminate Hlen|].
    injection Hlen as Hlen.
    destruct (IH xs' (pre ++ [x]) (skipped ++ [w])) as (picked & Hsel & Hn).
    + rewrite !length_app. cbn. lia.
    + exact Hlen.
    + rewrite length_app in Hsel. cbn [List.length] in Hsel.
      replace (List.length skipped + 1)%nat with (S (List.length skipped))
        in Hsel by lia.
      rewrite <- app_assoc in Hsel. cbn [app] in Hsel.
      cbn [argwhere_gt0_from filter]. destruct (gt0 w).
      * cbn [index_select].
        rewrite <- Hpre, nth_error_app2, Nat.sub_diag by lia. cbn.
        rewrite Hpre, Hsel. exists (x :: picked). split; [reflexivity|].
        cbn. now rewrite Hn.
      * exists picked. split; assumption.
Qed.

(** On tensors of one length, indexing by the positions of the positive
    weights does not raise and yields as many entries as there are
    positive weights. *)
Lemma index_select_argwhere (A : Type) (xs : list A) (weights : FloatTensor) :
  List.length xs = List.length weights ->
  exists picked,
    index_select xs (argwhere_gt0 weights) = Returned picked
    /\ List.length picked = List.length (filter gt0 weights).
Proof.
  intros Hlen.
  exact (index_select_argwhere_from A xs weights [] [] eq_refl Hlen).
Qed.

(** The entries the filter keeps are the positive weights themselves. *)
Lemma index_select_weights_from (weights : FloatTensor) :
  forall pre : FloatTensor,
    index_select (pre ++ weights)
      (argwhere_gt0_from (List.length pre) weights)
    = Returned (filter gt0 weights).
Proof.
  induction weights as [|w rest IH]; intros pre; [reflexivity|].
  specialize (IH (pre ++ [w])).
  rewrite length_app in IH. cbn [List.length] in IH.
  replace (List.length pre + 1)%nat with (S (List.length pre)) in IH by lia.
  rewrite <- app_assoc in IH. cbn [app] in IH.
  cbn [argwhere_gt0_from filter]. destruct (gt0 w); [|exact IH].
  cbn [index_select].
  rewrite nth_error_app2, Nat.sub_diag by lia. cbn.
  now rewrite IH.
Qed.

Lemma index_select_weights (weights : FloatTensor) :
  index_select weights (argwhere_gt0 weights) = Returned (filter gt0 weights).
Proof. exact (index_select_weights_from weights []). Qed.

(** ** Case analysis of a run, call by call *)

Ltac unfold_run :=
  cbv [Root.root_register_extrinsic Root.set_root_weights_extrinsic
       SetWeights.set_weights_extrinsic
       bind ret raise try_except perform helper emit eval
       result events final].

Ltac call_case c :=
  let o := fresh "o" in
  let s := fresh "s" in
  let E := fresh "Ecall" in
  destruct c as [o s] eqn:E; destruct o; cbn.

Ltac pure_case c :=
  let E := fresh "Epure" in
  destruct c eqn:E; cbn.

Ltac run_step :=
  match goal with
  | |- context [personalkey ?h ?w ?s] => call_case (personalkey h w s)
  | |- context [Confirm_ask ?h ?q ?s] => call_case (Confirm_ask h q s)
  | |- context [basedai_basednode ?h ?e ?s] =>
      call_case (basedai_basednode h e s)
  | |- context [is_computekey_registered ?n ?u ?k ?s] =>
      call_case (is_computekey_registered n u k s)
  | |- context [_do_root_register ?n ?w ?a ?b ?s] =>
      call_case (_do_root_register n w a b s)
  | |- context [_do_set_weights ?n ?w ?a ?b ?c ?d ?e ?f ?s] =>
      call_case (_do_set_weights n w a b c d e f s)
  | |- context [min_allowed_weights ?n ?u ?s] =>
      call_case (min_allowed_weights n u s)
  | |- context [max_weight_limit ?n ?u ?s] =>
      call_case (max_weight_limit n u s)
  | |- context [normalize_max_weight ?h ?x ?l] =>
      pure_case (normalize_max_weight h x l)
  | |- context [convert_weights_and_uids_for_emit ?h ?x ?l] =>
      pure_case (convert_weights_and_uids_for_emit h x l)
  | |- context [index_select ?t ?i] => pure_case (index_select t i)
  | |- context [let (_, _) := ?p in _] => is_var p; destruct p; cbn
  | |- context [if ?b then _ else _] => is_var b; destruct b; cbn
  | |- context [if negb ?b then _ else _] => is_var b; destruct b; cbn
  | |- context [Bool.eqb ?b _] => is_var b; destruct b; cbn
  | |- context [if ?b then _ else _] => destruct b eqn:?; cbn
  end.

Ltac run_cases := unfold_run; repeat run_step.

(** Membership of an event in an explicit trace, case by case. *)
Ltac in_cases :=
  repeat match goal with
         | H : _ \/ _ |- _ => destruct H
         | H : False |- _ => destruct H
         | H : ?x = _ :> event |- _ => is_var x; subst x
         | H : _ = ?x :> event |- _ => is_var x; subst x
         | H : _ = _ :> event |- _ =>
             first [discriminate H | injection H as ?]
         end.

(** An event is in an explicit trace. *)
Ltac in_solve := cbn; repeat first [left; reflexivity | right].

(** ** The registration gate *)

(** C5. [root_register_extrinsic] is idempotent: when the query made
    before any submission reports the participant registered on netuid
    0, the call returns [True] at once, having printed one line, and
    [_do_root_register] is not called. *)
Theorem root_register_idempotent (St : Type) (host : Host St)
  (basednode : Basednode St) (w : wallet)
  (wait_for_inclusion wait_for_finalization prompt : bool) (s s1 s2 : St) :
  personalkey host w s = (Returned tt, s1) ->
  is_computekey_registered basednode 0 (computekey_ss58_address w) s1
  = (Returned true, s2) ->
  let run := Root.root_register_extrinsic host basednode w
               wait_for_inclusion wait_for_finalization prompt s in
  result run = Returned (Some true)
  /\ final run = s2
  /\ events run = [EvUnlockPersonalkey (Returned tt);
                   EvIsRegistered 0 (computekey_ss58_address w) (Returned true);
                   EvConsole MsgAlreadyMemorized]
  /\ submissions (events run) = 0%nat.
Proof.
  intros Hkey Hreg run.
  assert (Hrun : run = (Returned (Some true), s2,
                        [EvUnlockPersonalkey (Returned tt);
                         EvIsRegistered 0 (computekey_ss58_address w)
                           (Returned true);
                         EvConsole MsgAlreadyMemorized])).
  { subst run. unfold_run. rewrite Hkey, Hreg. reflexivity. }
  rewrite Hrun. repeat split; reflexivity.
Qed.

(** A second call after a registration that succeeded submits nothing. *)
Lemma root_register_idempotent_witness :
  let first := Root.root_register_extrinsic Mock.host Mock.node
                 Mock.alice false true false Mock.fresh in
  let second := Root.root_register_extrinsic Mock.host Mock.node
                  Mock.alice false true false (final first) in
  (result first = Returned (Some true)
   /\ submissions (events first) = 1%nat)
  /\ (result second = Returned (Some true)
      /\ final second = final first
      /\ events second = [EvUnlockPersonalkey (Returned tt);
                          EvIsRegistered 0 "5Alice" (Returned true);
                          EvConsole MsgAlreadyMemorized]
      /\ submissions (events second) = 0%nat).
Proof.
  split.
  - split; reflexivity.
  - exact (root_register_idempotent Mock.chain Mock.host Mock.node
             Mock.alice false true false
             (Mock.with_registered Mock.fresh true)
             (Mock.with_registered Mock.fresh true)
             (Mock.with_registered Mock.fresh true)
             eq_refl eq_refl).
Defined.

(** ** The interactive confirmation *)

(** C8. In each of the three flows, a run in which the confirmation is
    declined returns [False] and contains no network submission: neither
    [_do_set_weights] nor [_do_root_register] is called. *)
Theorem declined_aborts (St : Type) (host : Host St) :
  (forall endpoint w netuid uids weights version_key wfi wff prompt s,
      let run := SetWeights.set_weights_extrinsic host endpoint w netuid
                   uids weights version_key wfi wff prompt s in
      existsb is_declined (events run) = true ->
      prompt = true
      /\ result run = Returned false
      /\ submissions (events run) = 0%nat)
  /\ (forall basednode w netuids weights version_key wfi wff prompt s,
         let run := Root.set_root_weights_extrinsic host basednode w netuids
                      weights version_key wfi wff prompt s in
         existsb is_declined (events run) = true ->
         prompt = true
         /\ result run = Returned false
         /\ submissions (events run) = 0%nat)
  /\ (forall basednode w wfi wff prompt s,
         let run := Root.root_register_extrinsic host basednode w
                      wfi wff prompt s in
         existsb is_declined (events run) = true ->
         prompt = true
         /\ result run = Returned (Some false)
         /\ submissions (events run) = 0%nat).
Proof.
  split; [|split]; intros; subst run; revert H;
    run_cases; intros Hdeclined;
    solve [discriminate Hdeclined | repeat split; reflexivity].
Qed.

Lemma declined_aborts_witness :
  let declining := Mock.with_answers Mock.fresh [false] in
  let set := SetWeights.set_weights_extrinsic Mock.host
               "ws://127.0.0.1:9944" Mock.alice 1 Mock.netuids3
               Mock.weights3 0 true true true declining in
  let root := Root.set_root_weights_extrinsic Mock.host Mock.node
                Mock.alice Mock.netuids3 Mock.weights3 0
                true true true declining in
  let register := Root.root_register_extrinsic Mock.host Mock.node
                    Mock.alice false true true declining in
  (result set = Returned false /\ submissions (events set) = 0%nat)
  /\ (result root = Returned false /\ submissions (events root) = 0%nat)
  /\ (result register = Returned (Some false)
      /\ submissions (events register) = 0%nat).
Proof.
  intros declining set root register.
  destruct (declined_aborts Mock.chain Mock.host) as (Hset & Hroot & Hregister).
  split; [|split].
  - apply (Hset "ws://127.0.0.1:9944"%string Mock.alice 1%Z
             Mock.netuids3 Mock.weights3 0%Z true true true declining).
    vm_compute. reflexivity.
  - apply (Hroot Mock.node Mock.alice Mock.netuids3
             Mock.weights3 0%Z true true true declining).
    vm_compute. reflexivity.
  - apply (Hregister Mock.node Mock.alice false true true declining).
    vm_compute. reflexivity.
Defined.

(** ** Outcome classification *)

(** C7. When neither inclusion nor finalization is awaited, a run in
    which [_do_set_weights] returns a pair [(success, message)] returns
    [True] whatever the pair is, with nothing more than the echo of the
    pair (in the root flow) between the call and the return. *)
Theorem no_wait_returns_true (St : Type) (host : Host St) :
  (forall endpoint w netuid uids weights version_key prompt s
          n u v k f i success message,
      let run := SetWeights.set_weights_extrinsic host endpoint w netuid
                   uids weights version_key false false prompt s in
      In (EvDoSetWeights n u v k f i (Returned (success, message)))
         (events run) ->
      result run = Returned true
      /\ after_submission (events run) = [])
  /\ (forall basednode w netuids weights version_key prompt s
             n u v k f i success message,
         let run := Root.set_root_weights_extrinsic host basednode w netuids
                      weights version_key false false prompt s in
         In (EvDoSetWeights n u v k f i (Returned (success, message)))
            (events run) ->
         result run = Returned true
         /\ after_submission (events run)
            = [EvConsole (MsgResponse success message)]).
Proof.
  split; intros; subst run; revert H; run_cases; cbn; intros Hin;
    in_cases; subst; split; reflexivity.
Qed.

Lemma no_wait_returns_true_witness :
  let set := SetWeights.set_weights_extrinsic Mock.host
               "ws://127.0.0.1:9944" Mock.alice 1 Mock.netuids3
               Mock.weights3 0 false false false Mock.rejecting in
  let root := Root.set_root_weights_extrinsic Mock.host Mock.node
                Mock.alice Mock.netuids3 Mock.weights3 0
                false false false Mock.rejecting in
  (result set = Returned true /\ after_submission (events set) = [])
  /\ (result root = Returned true
      /\ after_submission (events root)
         = [EvConsole (MsgResponse false "rejected by the chain")]).
Proof.
  intros set root.
  destruct (no_wait_returns_true Mock.chain Mock.host) as (Hset & Hroot).
  split.
  - apply (Hset "ws://127.0.0.1:9944"%string Mock.alice 1%Z
             Mock.netuids3 Mock.weights3 0%Z false Mock.rejecting
             1%Z [10; 20; 30]%Z [21845; 65535; 0]%Z 0%Z false false
             false "rejected by the chain"%string).
    vm_compute. tauto.
  - apply (Hroot Mock.node Mock.alice Mock.netuids3
             Mock.weights3 0%Z false Mock.rejecting
             0%Z [10; 20; 30]%Z [21845; 65535; 0]%Z 0%Z false false
             false "rejected by the chain"%string).
    vm_compute. tauto.
Defined.

(** ** The minimum number of positive weights *)

(** The run that fails the minimum-weights check. *)
Lemma insufficient_weights_run (St : Type) (host : Host St)
  (basednode : Basednode St) (w : wallet) (netuids : LongTensor)
  (weights : FloatTensor) (version_key : Z) (wfi wff prompt : bool) (s : St)
  (required : Z) (limit : float32) :
  let run := Root.set_root_weights_extrinsic host basednode w netuids
               weights version_key wfi wff prompt s in
  List.length netuids = List.length weights ->
  In (EvMinAllowedWeights 0 (Returned required)) (events run) ->
  In (EvMaxWeightLimit 0 (Returned limit)) (events run) ->
  (Z.of_nat (positive_count weights) < required)%Z ->
  result run
  = Raised (Root.min_weights_error required (positive_count weights))
  /\ events run = [EvMinAllowedWeights 0 (Returned required);
                   EvMaxWeightLimit 0 (Returned limit)].
Proof.
  intros run Hlen Hmin Hmax Hlt.
  destruct (index_select_argwhere Z netuids weights Hlen) as (picked & Hsel & _).
  subst run. unfold positive_count in *.
  revert Hmin Hmax. unfold_run. cbv [numel].
  rewrite Hsel, index_select_weights.
  repeat run_step; intros Hmin Hmax; in_cases; subst;
    try solve [repeat split; reflexivity];
    exfalso;
    match goal with
    | H : (_ <? _)%Z = false |- _ => apply Z.ltb_ge in H; lia
    end.
Qed.

(** C6. In [set_root_weights_extrinsic], on a weight vector (netuids
    and weights of one length), entries whose weight is <= 0 are not
    counted; when the chain's [min_allowed_weights] is [required] and
    fewer positive weights than that remain, the call raises the error
    that names [required] and the number that remain, and the run
    consists of the two parameter queries only: nothing is normalized
    and nothing submitted. *)
Theorem insufficient_weights_fatal (St : Type) (host : Host St)
  (basednode : Basednode St) (w : wallet) (netuids : LongTensor)
  (weights : FloatTensor) (version_key : Z) (wfi wff prompt : bool) (s : St)
  (required : Z) (limit : float32) :
  let run := Root.set_root_weights_extrinsic host basednode w netuids
               weights version_key wfi wff prompt s in
  let actual := positive_count weights in
  List.length netuids = List.length weights ->
  In (EvMinAllowedWeights 0 (Returned required)) (events run) ->
  In (EvMaxWeightLimit 0 (Returned limit)) (events run) ->
  (Z.of_nat actual < required)%Z ->
  (forall x, SFleb x f32_zero = true -> ~ In x (filter gt0 weights))
  /\ result run = Raised (Root.min_weights_error required actual)
  /\ events run = [EvMinAllowedWeights 0 (Returned required);
                   EvMaxWeightLimit 0 (Returned limit)]
  /\ submissions (events run) = 0%nat.
Proof.
  intros run actual Hlen Hmin Hmax Hlt.
  split.
  { intros x Hle Hin. apply filter_In in Hin as [_ Hgt].
    rewrite (gt0_le0 x Hle) in Hgt. discriminate Hgt. }
  destruct (insufficient_weights_run St host basednode w netuids weights
              version_key wfi wff prompt s required limit Hlen Hmin Hmax Hlt)
    as (Hres & Hev).
  fold run in Hres, Hev. rewrite Hev.
  repeat split; try reflexivity. exact Hres.
Qed.

(** The vector [(1, 0.0), (2, 0.5), (3, -1.0)] against a minimum of 2. *)
Lemma insufficient_weights_fatal_witness :
  let strict :=
    {| Mock.registered := false; Mock.accepting := true;
       Mock.visible := true; Mock.reachable := true;
       Mock.answers := [];
       Mock.param_min_allowed_weights := 2;
       Mock.param_max_weight_limit := WeightUtils.f32 1 0;
       Mock.received := [] |} in
  let run := Root.set_root_weights_extrinsic Mock.host Mock.node
               Mock.alice Mock.netuids_mixed Mock.weights_mixed 0
               true true false strict in
  result run
  = Raised (ValueError
      "The minimum number of weights required to set weights is 2, got 1")
  /\ submissions (events run) = 0%nat.
Proof.
  intros strict run.
  destruct (insufficient_weights_fatal Mock.chain Mock.host
              Mock.node Mock.alice Mock.netuids_mixed
              Mock.weights_mixed 0%Z true true false strict
              2%Z (WeightUtils.f32 1 0))
    as (_ & Hres & _ & Hsub).
  - reflexivity.
  - vm_compute. tauto.
  - vm_compute. tauto.
  - vm_compute. reflexivity.
  - split; [exact Hres | exact Hsub].
Defined.

(** ** The two error channels *)

(** C10. The minimum-weights check of [set_root_weights_extrinsic]
    raises a [ValueError] to the caller; once the [try] block of either
    weight-setting function is entered the call returns a value and
    raises nothing, and a run in which the encoder (root flow) or
    [_do_set_weights] (both flows) raises inside the block returns
    [False]. *)
Theorem error_channels (St : Type) (host : Host St) :
  (forall basednode w netuids weights version_key wfi wff prompt s
          required limit,
      let run := Root.set_root_weights_extrinsic host basednode w netuids
                   weights version_key wfi wff prompt s in
      List.length netuids = List.length weights ->
      In (EvMinAllowedWeights 0 (Returned required)) (events run) ->
      In (EvMaxWeightLimit 0 (Returned limit)) (events run) ->
      (Z.of_nat (positive_count weights) < required)%Z ->
      exists msg, result run = Raised (ValueError msg))
  /\ (forall basednode w netuids weights version_key wfi wff prompt s,
         let run := Root.set_root_weights_extrinsic host basednode w netuids
                      weights version_key wfi wff prompt s in
         (existsb entered_status (events run) = true ->
          exists b, result run = Returned b)
         /\ (forall ev e, In ev (events run) -> raised_by ev = Some e ->
                          result run = Returned false))
  /\ (forall endpoint w netuid uids weights version_key wfi wff prompt s,
         let run := SetWeights.set_weights_extrinsic host endpoint w netuid
                      uids weights version_key wfi wff prompt s in
         (existsb entered_status (events run) = true ->
          exists b, result run = Returned b)
         /\ (forall ev e, In ev (events run) ->
                          submission_raised ev = Some e ->
                          result run = Returned false)).
Proof.
  split; [|split].
  - intros basednode w netuids weights version_key wfi wff prompt s
      required limit run Hlen Hmin Hmax Hlt.
    destruct (insufficient_weights_run St host basednode w netuids weights
                version_key wfi wff prompt s required limit
                Hlen Hmin Hmax Hlt)
      as (Hres & _).
    eexists. exact Hres.
  - intros. subst run. run_cases;
      (split;
       [ intros Hin; first [discriminate Hin | eexists; reflexivity]
       | intros ev exc Hin Hraised; in_cases; subst;
         first [discriminate Hraised | reflexivity] ]).
  - intros. subst run. run_cases;
      (split;
       [ intros Hin; first [discriminate Hin | eexists; reflexivity]
       | intros ev exc Hin Hraised; in_cases; subst;
         first [discriminate Hraised | reflexivity] ]).
Qed.

Lemma error_channels_witness :
  let strict :=
    {| Mock.registered := false; Mock.accepting := true;
       Mock.visible := true; Mock.reachable := true;
       Mock.answers := [];
       Mock.param_min_allowed_weights := 2;
       Mock.param_max_weight_limit := WeightUtils.f32 1 0;
       Mock.received := [] |} in
  let offline :=
    {| Mock.registered := false; Mock.accepting := true;
       Mock.visible := true; Mock.reachable := false;
       Mock.answers := [];
       Mock.param_min_allowed_weights := 1;
       Mock.param_max_weight_limit := WeightUtils.f32 1 0;
       Mock.received := [] |} in
  (exists msg,
      result (Root.set_root_weights_extrinsic Mock.host Mock.node
                Mock.alice Mock.netuids_mixed Mock.weights_mixed 0
                true true false strict) = Raised (ValueError msg))
  /\ result (Root.set_root_weights_extrinsic Mock.host Mock.node
               Mock.alice Mock.netuids_mixed Mock.weights_mixed 0
               true true false Mock.fresh) = Returned false
  /\ result (Root.set_root_weights_extrinsic Mock.host Mock.node
               Mock.alice Mock.netuids3 Mock.weights3 0
               true true false offline) = Returned false
  /\ result (SetWeights.set_weights_extrinsic Mock.host
               "ws://127.0.0.1:9944" Mock.alice 1 Mock.netuids3
               Mock.weights3 0 true true false offline) = Returned false.
Proof.
  intros strict offline.
  destruct (error_channels Mock.chain Mock.host) as (Hpre & Hroot & Hset).
  split; [|split; [|split]].
  - apply (Hpre Mock.node Mock.alice Mock.netuids_mixed
             Mock.weights_mixed 0%Z true true false strict
             2%Z (WeightUtils.f32 1 0)).
    + reflexivity.
    + vm_compute. tauto.
    + vm_compute. tauto.
    + vm_compute. reflexivity.
  - apply (proj2 (Hroot Mock.node Mock.alice Mock.netuids_mixed
                    Mock.weights_mixed 0%Z true true false Mock.fresh)
             (EvConvertForEmit Mock.netuids_mixed Mock.weights_mixed
                (Raised (ValueError "weights must be non-negative")))
             (ValueError "weights must be non-negative")).
    + vm_compute. tauto.
    + reflexivity.
  - apply (proj2 (Hroot Mock.node Mock.alice Mock.netuids3
                    Mock.weights3 0%Z true true false offline)
             (EvDoSetWeights 0 [10; 20; 30]%Z [21845; 65535; 0]%Z 0 true true
                (Raised Mock.unreachable))
             Mock.unreachable).
    + vm_compute. tauto.
    + reflexivity.
  - apply (proj2 (Hset "ws://127.0.0.1:9944"%string Mock.alice 1%Z
                    Mock.netuids3 Mock.weights3 0%Z true true false
                    offline)
             (EvDoSetWeights 1 [10; 20; 30]%Z [21845; 65535; 0]%Z 0 true true
                (Raised Mock.unreachable))
             Mock.unreachable).
    + vm_compute. tauto.
    + reflexivity.
Defined.

(** ** The deadline guard *)

Lemma ends_within_lt (d : nat) (ttl : Z) :
  (Z.of_nat d < 1000 * ttl)%Z ->
  Multiprocessing.ends_within (Some d) ttl = true.
Proof. intros H. unfold Multiprocessing.ends_within. now apply Z.ltb_lt. Qed.

Lemma ends_within_elapsed (time : option nat) (ttl : Z) :
  ttl_elapses_first time ttl ->
  Multiprocessing.ends_within time ttl = false.
Proof.
  destruct time as [d|]; cbn; intros H; [|reflexivity].
  apply Z.ltb_ge. lia.
Qed.

(** The two runs of the guard. *)
Lemma ttl_guard_run (St : Type) (host : Host St) (basednode : Basednode St)
  (w : wallet) (netuid : Z) (uids : LongTensor) (weights : FloatTensor)
  (version_key : Z) (wfi wff prompt : bool) (ttl : Z) (s : St)
  (time : option nat) :
  let worker := SetWeights.set_weights_extrinsic host
                  (chain_endpoint basednode) w netuid uids weights
                  version_key wfi wff prompt s in
  SetWeights.ttl_set_weights_extrinsic host basednode w netuid uids weights
    version_key wfi wff prompt ttl s time
  = if Multiprocessing.ends_within time ttl
    then Some (true,
               {| Multiprocessing.target_run := worker;
                  Multiprocessing.target_time := time;
                  Multiprocessing.state :=
                    Multiprocessing.Joined (Multiprocessing.Completed worker) |},
               [Multiprocessing.PStart;
                Multiprocessing.PJoin (Some ttl);
                Multiprocessing.PIsAlive false])
    else Some (false,
               {| Multiprocessing.target_run := worker;
                  Multiprocessing.target_time := time;
                  Multiprocessing.state :=
                    Multiprocessing.Joined Multiprocessing.Killed |},
               [Multiprocessing.PStart;
                Multiprocessing.PJoin (Some ttl);
                Multiprocessing.PIsAlive true;
                Multiprocessing.PTerminate;
                Multiprocessing.PJoin None]).
Proof.
  intros worker.
  unfold SetWeights.ttl_set_weights_extrinsic. fold worker.
  unfold Multiprocessing.gbind at 1.
  unfold Multiprocessing.start, Multiprocessing.Process_new. cbn.
  unfold Multiprocessing.gbind at 1. unfold Multiprocessing.join at 1. cbn.
  destruct (Multiprocessing.ends_within time ttl); reflexivity.
Qed.

(** C1, as the code has it: a worker that ends before [ttl] has
    elapsed makes the guard return [True], whatever the wrapped
    [set_weights_extrinsic] returned or raised; that result stays in the
    joined process and is not handed to the caller. *)
Theorem ttl_in_time_returns_true (St : Type) (host : Host St)
  (basednode : Basednode St) (w : wallet) (netuid : Z) (uids : LongTensor)
  (weights : FloatTensor) (version_key : Z) (wfi wff prompt : bool)
  (ttl : Z) (s : St) (d : nat) :
  (Z.of_nat d < 1000 * ttl)%Z ->
  let worker := SetWeights.set_weights_extrinsic host
                  (chain_endpoint basednode) w netuid uids weights
                  version_key wfi wff prompt s in
  exists p,
    SetWeights.ttl_set_weights_extrinsic host basednode w netuid uids
      weights version_key wfi wff prompt ttl s (Some d)
    = Some (true, p, [Multiprocessing.PStart;
                      Multiprocessing.PJoin (Some ttl);
                      Multiprocessing.PIsAlive false])
    /\ Multiprocessing.state p
       = Multiprocessing.Joined (Multiprocessing.Completed worker).
Proof.
  intros Hd worker.
  rewrite ttl_guard_run, (ends_within_lt d ttl Hd).
  eexists. split; reflexivity.
Qed.

Lemma ttl_in_time_returns_true_witness :
  exists p,
    SetWeights.ttl_set_weights_extrinsic Mock.host Mock.node
      Mock.alice 1 Mock.netuids3 Mock.weights3 0 true true false
      1 Mock.fresh (Some 500%nat)
    = Some (true, p, [Multiprocessing.PStart;
                      Multiprocessing.PJoin (Some 1%Z);
                      Multiprocessing.PIsAlive false])
    /\ Multiprocessing.state p
       = Multiprocessing.Joined
           (Multiprocessing.Completed
              (SetWeights.set_weights_extrinsic Mock.host
                 "ws://127.0.0.1:9944" Mock.alice 1 Mock.netuids3
                 Mock.weights3 0 true true false Mock.fresh)).
Proof.
  apply (ttl_in_time_returns_true Mock.chain Mock.host Mock.node
           Mock.alice 1%Z Mock.netuids3 Mock.weights3 0%Z
           true true false 1%Z Mock.fresh 500%nat).
  reflexivity.
Defined.

(** C1 as stated fails: the chain rejects the weights within half a
    second, the wrapped call returns [False], the guard returns [True]. *)
Lemma ttl_result_not_propagated :
  let worker := SetWeights.set_weights_extrinsic Mock.host
                  (chain_endpoint Mock.node) Mock.alice 1
                  Mock.netuids3 Mock.weights3 0 true true false
                  Mock.rejecting in
  (Z.of_nat 500 < 1000 * 1)%Z
  /\ result worker = Returned false
  /\ guard_value
       (SetWeights.ttl_set_weights_extrinsic Mock.host Mock.node
          Mock.alice 1 Mock.netuids3 Mock.weights3 0
          true true false 1 Mock.rejecting (Some 500%nat))
     = Some true.
Proof. cbv zeta. split; [lia | split; reflexivity]. Qed.

(** C2. When [ttl] elapses before the worker has ended, the guard
    terminates the worker, joins it and returns [False]; every call in
    which the worker ends in time, with success or with a rejection,
    returns another value, so that a timeout is never reported as a
    success and is told apart from a rejection. *)
Theorem ttl_timeout_distinct (St : Type) (host : Host St)
  (basednode : Basednode St) (w : wallet) (netuid : Z) (uids : LongTensor)
  (weights : FloatTensor) (version_key : Z) (wfi wff prompt : bool)
  (ttl : Z) (s : St) (time : option nat) :
  ttl_elapses_first time ttl ->
  let timed_out := SetWeights.ttl_set_weights_extrinsic host basednode w
                     netuid uids weights version_key wfi wff prompt ttl s
                     time in
  (exists p,
      timed_out
      = Some (false, p, [Multiprocessing.PStart;
                         Multiprocessing.PJoin (Some ttl);
                         Multiprocessing.PIsAlive true;
                         Multiprocessing.PTerminate;
                         Multiprocessing.PJoin None])
      /\ Multiprocessing.state p
         = Multiprocessing.Joined Multiprocessing.Killed)
  /\ guard_value timed_out <> Some true
  /\ (forall (St' : Type) (host' : Host St') basednode' w' netuid' uids'
             weights' version_key' wfi' wff' prompt' ttl' s' d',
         (Z.of_nat d' < 1000 * ttl')%Z ->
         guard_value
           (SetWeights.ttl_set_weights_extrinsic host' basednode' w' netuid'
              uids' weights' version_key' wfi' wff' prompt' ttl' s'
              (Some d'))
         <> guard_value timed_out).
Proof.
  intros Helapsed timed_out. subst timed_out.
  rewrite ttl_guard_run, (ends_within_elapsed time ttl Helapsed).
  split; [|split].
  - eexists. split; reflexivity.
  - discriminate.
  - intros St' host' basednode' w' netuid' uids' weights' version_key'
      wfi' wff' prompt' ttl' s' d' Hd'.
    rewrite ttl_guard_run, (ends_within_lt d' ttl' Hd'). discriminate.
Qed.

(** A submission that hangs, under a ttl of one second. *)
Lemma ttl_timeout_distinct_witness :
  let timed_out := SetWeights.ttl_set_weights_extrinsic Mock.host
                     Mock.node Mock.alice 1 Mock.netuids3
                     Mock.weights3 0 true true false 1 Mock.fresh
                     None in
  let rejected := SetWeights.ttl_set_weights_extrinsic Mock.host
                    Mock.node Mock.alice 1 Mock.netuids3
                    Mock.weights3 0 true true false 1 Mock.rejecting
                    (Some 500%nat) in
  guard_value timed_out = Some false
  /\ guard_value timed_out <> Some true
  /\ guard_value rejected <> guard_value timed_out.
Proof.
  intros timed_out rejected.
  destruct (ttl_timeout_distinct Mock.chain Mock.host Mock.node
              Mock.alice 1%Z Mock.netuids3 Mock.weights3 0%Z
              true true false 1%Z Mock.fresh None I)
    as ((p & Hrun & _) & Hsuccess & Hdistinct).
  split; [|split].
  - reflexivity.
  - exact Hsuccess.
  - apply (Hdistinct Mock.chain Mock.host Mock.node Mock.alice
             1%Z Mock.netuids3 Mock.weights3 0%Z true true false 1%Z
             Mock.rejecting 500%nat).
    reflexivity.
Defined.

(** C9. The guard always returns, and when it does the worker has been
    joined: either it ended within [ttl] and [join(timeout=ttl)] reaped
    it, or it was terminated and then joined. *)
Theorem ttl_worker_reclaimed (St : Type) (host : Host St)
  (basednode : Basednode St) (w : wallet) (netuid : Z) (uids : LongTensor)
  (weights : FloatTensor) (version_key : Z) (wfi wff prompt : bool)
  (ttl : Z) (s : St) (time : option nat) :
  let worker := SetWeights.set_weights_extrinsic host
                  (chain_endpoint basednode) w netuid uids weights
                  version_key wfi wff prompt s in
  exists v p tr,
    SetWeights.ttl_set_weights_extrinsic host basednode w netuid uids
      weights version_key wfi wff prompt ttl s time = Some (v, p, tr)
    /\ ((Multiprocessing.ends_within time ttl = true
         /\ v = true
         /\ tr = [Multiprocessing.PStart;
                  Multiprocessing.PJoin (Some ttl);
                  Multiprocessing.PIsAlive false]
         /\ Multiprocessing.state p
            = Multiprocessing.Joined (Multiprocessing.Completed worker))
        \/ (Multiprocessing.ends_within time ttl = false
            /\ v = false
            /\ tr = [Multiprocessing.PStart;
                     Multiprocessing.PJoin (Some ttl);
                     Multiprocessing.PIsAlive true;
                     Multiprocessing.PTerminate;
                     Multiprocessing.PJoin None]
            /\ Multiprocessing.state p
               = Multiprocessing.Joined Multiprocessing.Killed)).
Proof.
  intros worker. rewrite ttl_guard_run. fold worker.
  destruct (Multiprocessing.ends_within time ttl) eqn:Hin;
    do 3 eexists; (split; [reflexivity|]).
  - left. repeat split; reflexivity.
  - right. repeat split; reflexivity.
Qed.

(** ** The registration gate after a submission *)

(** C4, as the code has it: a registration is submitted only after the
    status query has answered "not registered"; when the call reports
    success the status is queried once more, and the gate returns [True]
    exactly when that query answers "registered", printing the
    not-found line when it answers otherwise; when the call reports
    failure the status is not queried again, the call's message is
    printed, and the gate does not return [True]. *)
Theorem root_register_post_check (St : Type) (host : Host St)
  (basednode : Basednode St) (w : wallet) (wfi wff prompt : bool) (s : St)
  (success : bool) (message : string) :
  let run := Root.root_register_extrinsic host basednode w wfi wff prompt s in
  let key := computekey_ss58_address w in
  In (EvDoRootRegister wfi wff (Returned (success, message))) (events run) ->
  In (EvIsRegistered 0 key (Returned false)) (before_submission (events run))
  /\ submissions (events run) = 1%nat
  /\ (success = false ->
      requeries (events run) = 0%nat
      /\ In (EvConsole (MsgFailed message)) (after_submission (events run))
      /\ result run <> Returned (Some true))
  /\ (success = true ->
      requeries (events run) = 1%nat
      /\ (result run = Returned (Some true) <->
          In (EvIsRegistered 0 key (Returned true))
             (after_submission (events run)))
      /\ (In (EvIsRegistered 0 key (Returned false))
             (after_submission (events run)) ->
          In (EvConsole MsgMemoryCircuitNotFound)
             (after_submission (events run))
          /\ result run <> Returned (Some true))).
Proof.
  intros run key. subst run key. unfold requeries.
  run_cases; intros Hin; in_cases; subst;
    (split; [in_solve | split; [reflexivity | split]]);
    intros Hs; try discriminate Hs;
    (split; [reflexivity | split]).
  all: try solve [in_solve].
  all: try solve [discriminate].
  all: try solve [split; [intros _; in_solve | reflexivity]].
  all: try solve [intros Hf; cbn in Hf; in_cases; try discriminate;
                  try (split; [in_solve | discriminate])].
  all: try solve [split; intros Hf; cbn in Hf; in_cases; discriminate].
Qed.

(** A chain that accepts the registration but does not yet show it. *)
Lemma root_register_post_check_witness :
  let lagging :=
    {| Mock.registered := false; Mock.accepting := true;
       Mock.visible := false; Mock.reachable := true;
       Mock.answers := [];
       Mock.param_min_allowed_weights := 1;
       Mock.param_max_weight_limit := WeightUtils.f32 1 0;
       Mock.received := [] |} in
  let run := Root.root_register_extrinsic Mock.host Mock.node
               Mock.alice false true false lagging in
  requeries (events run) = 1%nat
  /\ In (EvConsole MsgMemoryCircuitNotFound) (after_submission (events run))
  /\ result run <> Returned (Some true).
Proof.
  intros lagging run.
  destruct (root_register_post_check Mock.chain Mock.host Mock.node
              Mock.alice false true false lagging true EmptyString)
    as (_ & _ & _ & Hsuccess).
  - vm_compute. tauto.
  - destruct (Hsuccess eq_refl) as (Hone & _ & Hnot).
    split; [exact Hone | apply Hnot]. vm_compute. tauto.
Defined.

(** C4 as stated fails: the chain rejects the registration; the status
    is not queried again and the call ends without a [return]. *)
Lemma root_register_no_requery_after_failure :
  let run := Root.root_register_extrinsic Mock.host Mock.node
               Mock.alice false true false Mock.rejecting in
  events run
  = [EvUnlockPersonalkey (Returned tt);
     EvIsRegistered 0 "5Alice" (Returned false);
     EvStatus StatusCreatingLink;
     EvDoRootRegister false true (Returned (false, "rejected by the chain"%string));
     EvConsole (MsgFailed "rejected by the chain");
     EvSleep]
  /\ requeries (events run) = 0%nat
  /\ result run = Returned None
  /\ result run <> Returned (Some false).
Proof. cbv zeta. repeat split; try reflexivity. discriminate. Qed.

(** ** Filtering, normalization and emission of root weights *)




(** What the encoder is given in the root flow: the caller's netuids
    and weights as they came.  The output of the normalizer goes to the
    console and into the prompt, and nowhere else. *)
Lemma root_weights_encoder_input (St : Type) (host : Host St)
  (basednode : Basednode St) (w : wallet) (netuids : LongTensor)
  (weights : FloatTensor) (version_key : Z) (wfi wff prompt : bool) (s : St) :
  let run := Root.set_root_weights_extrinsic host basednode w netuids
               weights version_key wfi wff prompt s in
  forall uids x o,
    In (EvConvertForEmit uids x o) (events run) ->
    uids = netuids /\ x = weights.
Proof.
  intros run. subst run. run_cases; intros; in_cases; subst;
    split; reflexivity.
Qed.

(** * Further properties of the four functions *)

(** Naming the event of an explicit trace that raised. *)
Ltac pick_event := (left; reflexivity) + (right; pick_event).
Ltac raised_last := eexists; split; [pick_event | reflexivity].

(** ** [root_register_extrinsic] *)


(** X2. [root_register_extrinsic] returns [True] exactly when the last
    registration query of the run answered "registered": the value
    [True] always rests on the chain's status, never on the word of
    [_do_root_register] alone. *)
Theorem root_register_true_iff (St : Type) (host : Host St)
  (basednode : Basednode St) (w : wallet) (wfi wff prompt : bool) (s : St) :
  let run := Root.root_register_extrinsic host basednode w wfi wff prompt s in
  result run = Returned (Some true)
  <-> last_registration_answer (events run) = Some (Returned true).
Proof.
  intros run. subst run.
  run_cases; split; intros H; solve [reflexivity | discriminate H].
Qed.

(** X3. [root_register_extrinsic] has no [try]: it raises [e] exactly
    when one of its calls (unlocking the key, a status query, the
    prompt, [_do_root_register]) raises [e], and that call is then the
    last thing the run did. *)
Theorem root_register_raises_iff (St : Type) (host : Host St)
  (basednode : Basednode St) (w : wallet) (wfi wff prompt : bool) (s : St)
  (e : exn) :
  let run := Root.root_register_extrinsic host basednode w wfi wff prompt s in
  (result run = Raised e
   <-> exists ev, In ev (events run) /\ event_raised ev = Some e)
  /\ (result run = Raised e ->
      event_raised (last_event (events run)) = Some e).
Proof.
  intros run. subst run.
  run_cases; (split; [split|]).
  all: try solve [intros H; discriminate H].
  all: try solve [intros H; injection H as ->; first [raised_last | reflexivity]].
  all: intros (ev & Hin & Hr); cbn in Hin; in_cases; subst;
    cbn in Hr; first [discriminate Hr | injection Hr as ->; reflexivity].
Qed.

(** X4. [root_register_extrinsic] returns [False] exactly when the
    confirmation was declined, and ends without a [return] (the value
    [None]) exactly when [_do_root_register] returned and either
    reported failure or was followed by a status query that answered
    "not registered". *)
Theorem root_register_false_none (St : Type) (host : Host St)
  (basednode : Basednode St) (w : wallet) (wfi wff prompt : bool) (s : St) :
  let run := Root.root_register_extrinsic host basednode w wfi wff prompt s in
  let key := computekey_ss58_address w in
  (result run = Returned (Some false)
   <-> existsb is_declined (events run) = true)
  /\ (result run = Returned None
      <-> exists success message,
          In (EvDoRootRegister wfi wff (Returned (success, message)))
             (events run)
          /\ (success = false
              \/ In (EvIsRegistered 0 key (Returned false))
                    (after_submission (events run)))).
Proof.
  intros run key. subst run key.
  run_cases; (split; split).
  all: try solve [intros H; first [reflexivity | discriminate H]].
  all: try solve [intros _; do 2 eexists; split;
                  [in_solve | first [left; reflexivity | right; in_solve]]].
  all: intros (success & message & Hin & Hcase); cbn in Hin, Hcase;
    in_cases; subst; first [discriminate | reflexivity].
Qed.

Lemma root_register_true_iff_witness :
  result (Root.root_register_extrinsic Mock.host Mock.node Mock.alice
            false true false Mock.fresh) = Returned (Some true)
  /\ result (Root.root_register_extrinsic Mock.host Mock.node Mock.alice
               false true false Mock.rejecting) <> Returned (Some true).
Proof.
  split.
  - apply (proj2 (root_register_true_iff Mock.chain Mock.host Mock.node
                    Mock.alice false true false Mock.fresh)).
    reflexivity.
  - intros H.
    apply (proj1 (root_register_true_iff Mock.chain Mock.host Mock.node
                    Mock.alice false true false Mock.rejecting)) in H.
    discriminate H.
Defined.

(** An endpoint that cannot be reached: [_do_root_register] raises. *)
Lemma root_register_raises_iff_witness :
  let offline :=
    {| Mock.registered := false; Mock.accepting := true;
       Mock.visible := true; Mock.reachable := false;
       Mock.answers := [];
       Mock.param_min_allowed_weights := 1;
       Mock.param_max_weight_limit := WeightUtils.f32 1 0;
       Mock.received := [] |} in
  result (Root.root_register_extrinsic Mock.host Mock.node Mock.alice
            false true false offline) = Raised Mock.unreachable.
Proof.
  intros offline.
  apply (proj2 (proj1 (root_register_raises_iff Mock.chain Mock.host
                         Mock.node Mock.alice false true false offline
                         Mock.unreachable))).
  exists (EvDoRootRegister false true (Raised Mock.unreachable)).
  split; [vm_compute; tauto | reflexivity].
Defined.

Lemma root_register_false_none_witness :
  result (Root.root_register_extrinsic Mock.host Mock.node Mock.alice
            false true true (Mock.with_answers Mock.fresh [false]))
  = Returned (Some false)
  /\ result (Root.root_register_extrinsic Mock.host Mock.node Mock.alice
               false true false Mock.rejecting) = Returned None.
Proof.
  split.
  - apply (proj2 (proj1 (root_register_false_none Mock.chain Mock.host
                           Mock.node Mock.alice false true true
                           (Mock.with_answers Mock.fresh [false])))).
    reflexivity.
  - apply (proj2 (proj2 (root_register_false_none Mock.chain Mock.host
                           Mock.node Mock.alice false true false
                           Mock.rejecting))).
    exists false, "rejected by the chain"%string.
    split; [vm_compute; tauto | left; reflexivity].
Defined.

(** ** The two weight-setting functions *)

(** X5. A run of either weight-setting function submits at most once
    and asks the user at most once, and only when [prompt] is set;
    in the root flow a declined prompt also keeps the encoder from
    being called. *)
Theorem weights_call_bounds (St : Type) (host : Host St) :
  (forall endpoint w netuid uids weights version_key wfi wff prompt s,
      let run := SetWeights.set_weights_extrinsic host endpoint w netuid
                   uids weights version_key wfi wff prompt s in
      (submissions (events run) <= 1)%nat
      /\ (prompts (events run) <= (if prompt then 1 else 0))%nat)
  /\ (forall basednode w netuids weights version_key wfi wff prompt s,
         let run := Root.set_root_weights_extrinsic host basednode w netuids
                      weights version_key wfi wff prompt s in
         (submissions (events run) <= 1)%nat
         /\ (prompts (events run) <= (if prompt then 1 else 0))%nat
         /\ (forall q u x o, In (EvConfirm q (Returned false)) (events run) ->
                             ~ In (EvConvertForEmit u x o) (events run))).
Proof.
  split; intros; subst run; unfold submissions, prompts; run_cases;
    repeat split; try (cbn; lia);
    intros q u x o Hq Hc; cbn in Hq, Hc; in_cases; discriminate.
Qed.

(** X6. Either weight-setting function returns [True] exactly when
    [_do_set_weights] was called and returned a pair, and either
    nothing was awaited or the pair reports success. *)
Theorem weights_true_iff (St : Type) (host : Host St) :
  (forall endpoint w netuid uids weights version_key wfi wff prompt s,
      let run := SetWeights.set_weights_extrinsic host endpoint w netuid
                   uids weights version_key wfi wff prompt s in
      result run = Returned true
      <-> exists n u v k f i success message,
          In (EvDoSetWeights n u v k f i (Returned (success, message)))
             (events run)
          /\ ((wff = false /\ wfi = false) \/ success = true))
  /\ (forall basednode w netuids weights version_key wfi wff prompt s,
         let run := Root.set_root_weights_extrinsic host basednode w netuids
                      weights version_key wfi wff prompt s in
         result run = Returned true
         <-> exists n u v k f i success message,
             In (EvDoSetWeights n u v k f i (Returned (success, message)))
                (events run)
             /\ ((wff = false /\ wfi = false) \/ success = true)).
Proof.
  split; intros; subst run; destruct wfi, wff; run_cases; split.
  all: try solve [intros H; discriminate H].
  all: try solve [intros _; do 8 eexists; split;
                  [pick_event | first [left; split; reflexivity
                                      | right; reflexivity]]].
  all: intros (n & u & v & k & f & i & success & message & Hin & Hcase);
    cbn in Hin; in_cases; subst;
    try reflexivity;
    repeat match goal with H : _ /\ _ |- _ => destruct H end;
    congruence.
Qed.

Lemma weights_true_iff_witness :
  result (SetWeights.set_weights_extrinsic Mock.host "ws://127.0.0.1:9944"
            Mock.alice 1 Mock.netuids3 Mock.weights3 0 true true false
            Mock.fresh) = Returned true
  /\ result (SetWeights.set_weights_extrinsic Mock.host
               "ws://127.0.0.1:9944" Mock.alice 1 Mock.netuids3
               Mock.weights3 0 true true false Mock.rejecting)
     <> Returned true.
Proof.
  destruct (weights_true_iff Mock.chain Mock.host) as (Hset & _).
  split.
  - apply (proj2 (Hset "ws://127.0.0.1:9944"%string Mock.alice 1%Z
                    Mock.netuids3 Mock.weights3 0%Z true true false
                    Mock.fresh)).
    exists 1%Z, [10; 20; 30]%Z, [21845; 65535; 0]%Z, 0%Z, true, true,
      true, EmptyString.
    split; [vm_compute; tauto | right; reflexivity].
  - intros H.
    apply (proj1 (Hset "ws://127.0.0.1:9944"%string Mock.alice 1%Z
                    Mock.netuids3 Mock.weights3 0%Z true true false
                    Mock.rejecting)) in H.
    destruct H as (n & u & v & k & f & i & success & message & Hin & Hc).
    vm_compute in Hin.
    destruct Hc as [[Hf _]|Hs]; [discriminate Hf|].
    subst success. in_cases; discriminate.
Defined.

(** X7. [set_weights_extrinsic] raises [e] exactly when the connection
    to the endpoint, the encoder or the prompt raises [e]: these three
    calls stand outside the [try].  When it raises, nothing was
    submitted. *)
Theorem set_weights_raises_iff (St : Type) (host : Host St)
  (endpoint : string) (w : wallet) (netuid : Z) (uids : LongTensor)
  (weights : FloatTensor) (version_key : Z) (wfi wff prompt : bool) (s : St)
  (e : exn) :
  let run := SetWeights.set_weights_extrinsic host endpoint w netuid
               uids weights version_key wfi wff prompt s in
  (result run = Raised e
   <-> exists ev, In ev (events run) /\ event_raised ev = Some e
                  /\ is_submission ev = false)
  /\ (result run = Raised e -> submissions (events run) = 0%nat).
Proof.
  intros run. subst run.
  run_cases; (split; [split|]).
  all: try solve [intros H; discriminate H].
  all: try solve [intros H; injection H as ->;
                  first [ eexists; split; [pick_event | split; reflexivity]
                        | reflexivity ]].
  all: intros (ev & Hin & Hr & Hsub); cbn in Hin; in_cases; subst;
    cbn in Hr, Hsub; first [discriminate | injection Hr as ->; reflexivity].
Qed.

(** Weights the encoder refuses, with no one asked. *)
Lemma set_weights_raises_iff_witness :
  result (SetWeights.set_weights_extrinsic Mock.host "ws://127.0.0.1:9944"
            Mock.alice 1 Mock.netuids_mixed Mock.weights_mixed 0
            true true true Mock.fresh)
  = Raised (ValueError "weights must be non-negative")
  /\ submissions
       (events (SetWeights.set_weights_extrinsic Mock.host
                  "ws://127.0.0.1:9944" Mock.alice 1 Mock.netuids_mixed
                  Mock.weights_mixed 0 true true true Mock.fresh)) = 0%nat.
Proof.
  destruct (set_weights_raises_iff Mock.chain Mock.host
              "ws://127.0.0.1:9944"%string Mock.alice 1%Z
              Mock.netuids_mixed Mock.weights_mixed 0%Z true true true
              Mock.fresh (ValueError "weights must be non-negative"))
    as (Hiff & Hnone).
  assert (Hraised :
    result (SetWeights.set_weights_extrinsic Mock.host "ws://127.0.0.1:9944"
              Mock.alice 1 Mock.netuids_mixed Mock.weights_mixed 0
              true true true Mock.fresh)
    = Raised (ValueError "weights must be non-negative")).
  { apply (proj2 Hiff).
    exists (EvConvertForEmit Mock.netuids_mixed Mock.weights_mixed
              (Raised (ValueError "weights must be non-negative"))).
    split; [vm_compute; tauto | split; reflexivity]. }
  split; [exact Hraised | exact (Hnone Hraised)].
Defined.

(** X8. In [set_weights_extrinsic] every submission carries the
    caller's netuid, version key and wait flags, and as uids and values
    exactly what the encoder returned on the caller's uids and
    weights; it is made on a connection opened to the endpoint given. *)
Theorem set_weights_submission_args (St : Type) (host : Host St)
  (endpoint : string) (w : wallet) (netuid : Z) (uids : LongTensor)
  (weights : FloatTensor) (version_key : Z) (wfi wff prompt : bool) (s : St)
  (n : Z) (u v : list Z) (k : Z) (f i : bool) (o : outcome (bool * string)) :
  let run := SetWeights.set_weights_extrinsic host endpoint w netuid
               uids weights version_key wfi wff prompt s in
  In (EvDoSetWeights n u v k f i o) (events run) ->
  n = netuid /\ k = version_key /\ f = wff /\ i = wfi
  /\ convert_weights_and_uids_for_emit host uids weights = Returned (u, v)
  /\ In (EvConnect endpoint (Returned tt)) (before_submission (events run)).
Proof.
  intros run. subst run.
  run_cases; intros Hin; in_cases; subst; repeat split;
    solve [reflexivity | assumption | in_solve].
Qed.

Lemma set_weights_submission_args_witness :
  WeightUtils.convert_weights_and_uids_for_emit Mock.netuids3 Mock.weights3
  = Returned ([10; 20; 30]%Z, [21845; 65535; 0]%Z).
Proof.
  apply (set_weights_submission_args Mock.chain Mock.host
           "ws://127.0.0.1:9944"%string Mock.alice 1%Z Mock.netuids3
           Mock.weights3 0%Z true true false Mock.fresh
           1%Z [10; 20; 30]%Z [21845; 65535; 0]%Z 0%Z true true
           (Returned (true, EmptyString))).
  vm_compute. tauto.
Defined.

(** ** [set_root_weights_extrinsic] before its [try] *)

Lemma argwhere_gt0_from_In (weights : FloatTensor) :
  forall (k i : nat) (w : float32),
    nth_error weights i = Some w -> gt0 w = true ->
    In (k + i)%nat (argwhere_gt0_from k weights).
Proof.
  induction weights as [|x rest IH]; intros k i w Hnth Hgt.
  - destruct i; discriminate Hnth.
  - destruct i as [|i']; cbn [argwhere_gt0_from].
    + injection Hnth as ->. rewrite Hgt, Nat.add_0_r. left. reflexivity.
    + cbn in Hnth. specialize (IH (S k) i' w Hnth Hgt).
      replace (k + S i')%nat with (S k + i')%nat by lia.
      destruct (gt0 x); [right|]; exact IH.
Qed.

(** Indexing raises as soon as one index is out of range. *)
Lemma index_select_out_of_range (A : Type) (t : list A) (idx : list nat) :
  (exists i, In i idx /\ (List.length t <= i)%nat) ->
  exists j, (List.length t <= j)%nat
            /\ index_select t idx = Raised (index_error j (List.length t)).
Proof.
  induction idx as [|i0 rest IH]; intros (i & Hin & Hle).
  - destruct Hin.
  - cbn [index_select].
    destruct (nth_error t i0) as [x|] eqn:Hnth.
    + destruct Hin as [->|Hin].
      * apply nth_error_None in Hle. congruence.
      * destruct IH as (j & Hj & Hsel); [exists i; split; assumption|].
        exists j. rewrite Hsel. split; [exact Hj | reflexivity].
    + exists i0. split; [now apply nth_error_None | reflexivity].
Qed.

(** X9. [set_root_weights_extrinsic] raises only before anything is
    encoded or submitted, and for one of three reasons: a call outside
    the [try] (a parameter query, the normalizer, the prompt) raised,
    the positions of the positive weights do not all exist in
    [netuids], or there are fewer positive weights than the chain's
    minimum.  Conversely an exception of a call outside the [try]
    always reaches the caller. *)
Theorem set_root_weights_raises (St : Type) (host : Host St)
  (basednode : Basednode St) (w : wallet) (netuids : LongTensor)
  (weights : FloatTensor) (version_key : Z) (wfi wff prompt : bool) (s : St)
  (e : exn) :
  let run := Root.set_root_weights_extrinsic host basednode w netuids
               weights version_key wfi wff prompt s in
  (result run = Raised e ->
   submissions (events run) = 0%nat
   /\ (forall u x o, ~ In (EvConvertForEmit u x o) (events run))
   /\ ((exists ev, In ev (events run) /\ event_raised ev = Some e
                   /\ in_try_root ev = false)
       \/ index_select netuids (argwhere_gt0 weights) = Raised e
       \/ (exists required,
              In (EvMinAllowedWeights 0 (Returned required)) (events run)
              /\ (Z.of_nat (positive_count weights) < required)%Z
              /\ e = Root.min_weights_error required
                       (positive_count weights))))
  /\ (forall ev, In ev (events run) -> in_try_root ev = false ->
                 event_raised ev = Some e -> result run = Raised e).
Proof.
  intros run. subst run. unfold positive_count.
  unfold_run. cbv [numel]. rewrite index_select_weights.
  repeat run_step; split.
  all: try solve [intros H; discriminate H].
  all: try solve [intros ev Hin Htry Hr; cbn in Hin; in_cases; subst;
                  cbn in Htry, Hr;
                  first [discriminate | injection Hr as ->; reflexivity]].
  all: intros H; injection H as <-;
    (split; [reflexivity|]);
    (split; [intros u x o Hin; cbn in Hin; in_cases; discriminate|]).
  all: try solve [left; eexists; split; [pick_event | split; reflexivity]].
  all: try solve [right; left; reflexivity].
  all: right; right; eexists; split; [in_solve|];
    split; [apply Z.ltb_lt; assumption | reflexivity].
Qed.

(** The prompt itself fails. *)
Lemma set_root_weights_raises_witness :
  let broken : Host Mock.chain :=
    {| personalkey := personalkey Mock.host;
       Confirm_ask := fun _ c =>
         (Raised (OtherError "EOFError" "no terminal"), c);
       basedai_basednode := basedai_basednode Mock.host;
       normalize_max_weight := normalize_max_weight Mock.host;
       convert_weights_and_uids_for_emit :=
         convert_weights_and_uids_for_emit Mock.host |} in
  let run := Root.set_root_weights_extrinsic broken Mock.node Mock.alice
               Mock.netuids3 Mock.weights3 0 true true true Mock.fresh in
  result run = Raised (OtherError "EOFError" "no terminal")
  /\ submissions (events run) = 0%nat.
Proof.
  intros broken run.
  destruct (set_root_weights_raises Mock.chain broken Mock.node Mock.alice
              Mock.netuids3 Mock.weights3 0%Z true true true Mock.fresh
              (OtherError "EOFError" "no terminal"))
    as (Hsources & Hescapes).
  assert (Hraised : result run = Raised (OtherError "EOFError" "no terminal")).
  { apply (Hescapes
             (EvConfirm
                (AskSetRootWeights
                   [S754_finite false 11184811 (-25);
                    S754_finite false 8388608 (-23); S754_zero false]
                   Mock.netuids3)
                (Raised (OtherError "EOFError" "no terminal")))).
    - vm_compute. tauto.
    - reflexivity.
    - reflexivity. }
  split; [exact Hraised | exact (proj1 (Hsources Hraised))].
Defined.

(** X10. When a positive weight stands at a position that [netuids]
    does not have, [set_root_weights_extrinsic] raises an [IndexError]
    right after the two parameter queries, whatever the minimum is:
    nothing is normalized, asked or submitted. *)
Theorem short_netuids_index_error (St : Type) (host : Host St)
  (basednode : Basednode St) (w : wallet) (netuids : LongTensor)
  (weights : FloatTensor) (version_key : Z) (wfi wff prompt : bool) (s : St)
  (i : nat) (x : float32) (required : Z) (limit : float32) :
  let run := Root.set_root_weights_extrinsic host basednode w netuids
               weights version_key wfi wff prompt s in
  nth_error weights i = Some x ->
  gt0 x = true ->
  (List.length netuids <= i)%nat ->
  In (EvMinAllowedWeights 0 (Returned required)) (events run) ->
  In (EvMaxWeightLimit 0 (Returned limit)) (events run) ->
  (exists j, (List.length netuids <= j)%nat
             /\ result run
                = Raised (index_error j (List.length netuids)))
  /\ events run = [EvMinAllowedWeights 0 (Returned required);
                   EvMaxWeightLimit 0 (Returned limit)].
Proof.
  intros run Hnth Hgt Hshort.
  destruct (index_select_out_of_range Z netuids (argwhere_gt0 weights))
    as (j & Hj & Hsel).
  { exists i. split; [|exact Hshort].
    exact (argwhere_gt0_from_In weights 0 i x Hnth Hgt). }
  subst run. unfold_run. rewrite Hsel.
  repeat run_step; intros Hmin Hmax; in_cases; subst.
  split; [exists j; split; [exact Hj | reflexivity] | reflexivity].
Qed.

(** Three weights for two netuids. *)
Lemma short_netuids_index_error_witness :
  let run := Root.set_root_weights_extrinsic Mock.host Mock.node Mock.alice
               [10; 20]%Z [f32_zero; f32_zero; WeightUtils.f32 1 0] 0
               true true false Mock.fresh in
  (exists j, (2 <= j)%nat /\ result run = Raised (index_error j 2))
  /\ events run
     = [EvMinAllowedWeights 0 (Returned 1%Z);
        EvMaxWeightLimit 0 (Returned (WeightUtils.f32 1 0))].
Proof.
  intros run.
  apply (short_netuids_index_error Mock.chain Mock.host Mock.node
           Mock.alice [10; 20]%Z
           [f32_zero; f32_zero; WeightUtils.f32 1 0] 0%Z true true false
           Mock.fresh 2%nat (WeightUtils.f32 1 0) 1%Z (WeightUtils.f32 1 0)).
  - reflexivity.
  - reflexivity.
  - cbn. lia.
  - vm_compute. tauto.
  - vm_compute. tauto.
Defined.

(** The two parameter queries that a run shows returned are the first
    two calls. *)
Lemma root_params_returned (St : Type) (host : Host St)
  (basednode : Basednode St) (w : wallet) (netuids : LongTensor)
  (weights : FloatTensor) (version_key : Z) (wfi wff prompt : bool) (s : St)
  (required : Z) (limit : float32) :
  let run := Root.set_root_weights_extrinsic host basednode w netuids
               weights version_key wfi wff prompt s in
  In (EvMinAllowedWeights 0 (Returned required)) (events run) ->
  In (EvMaxWeightLimit 0 (Returned limit)) (events run) ->
  exists s0 s1,
    min_allowed_weights basednode 0 s = (Returned required, s0)
    /\ max_weight_limit basednode 0 s0 = (Returned limit, s1).
Proof.
  intros run. subst run.
  run_cases; intros Hmin Hmax; in_cases; subst;
    do 2 eexists; (split; [reflexivity | eassumption]).
Qed.

(** X11. The minimum is inclusive: on a weight vector with at least as
    many positive weights as the chain's minimum, the check passes and
    the normalizer is called next, on the whole vector and the chain's
    limit; if the normalizer raises, so does the call, with nothing
    asked or submitted. *)
Theorem sufficient_weights_proceed (St : Type) (host : Host St)
  (basednode : Basednode St) (w : wallet) (netuids : LongTensor)
  (weights : FloatTensor) (version_key : Z) (wfi wff prompt : bool) (s : St)
  (required : Z) (limit : float32) :
  let run := Root.set_root_weights_extrinsic host basednode w netuids
               weights version_key wfi wff prompt s in
  let normalized := normalize_max_weight host weights limit in
  List.length netuids = List.length weights ->
  In (EvMinAllowedWeights 0 (Returned required)) (events run) ->
  In (EvMaxWeightLimit 0 (Returned limit)) (events run) ->
  (required <= Z.of_nat (positive_count weights))%Z ->
  firstn 3 (events run)
  = [EvMinAllowedWeights 0 (Returned required);
     EvMaxWeightLimit 0 (Returned limit);
     EvNormalizeMaxWeight weights limit normalized]
  /\ (forall e, normalized = Raised e ->
                result run = Raised e
                /\ List.length (events run) = 3%nat).
Proof.
  intros run normalized Hlen Hmin Hmax Hle.
  destruct (index_select_argwhere Z netuids weights Hlen)
    as (picked & Hsel & _).
  destruct (root_params_returned St host basednode w netuids weights
              version_key wfi wff prompt s required limit Hmin Hmax)
    as (s0 & s1 & Hm & Hl).
  clear Hmin Hmax. subst run normalized. unfold positive_count in Hle.
  unfold_run. cbv [numel].
  rewrite Hm; cbn. rewrite Hl; cbn.
  rewrite Hsel, index_select_weights.
  apply Z.ltb_ge in Hle. rewrite Hle.
  destruct (normalize_max_weight host weights limit) as [formatted|e0];
    cbn.
  - split; [|intros e He; discriminate He].
    repeat run_step; reflexivity.
  - split; [reflexivity|].
    intros e He. injection He as ->. split; reflexivity.
Qed.

(** One positive weight against a minimum of one. *)
Lemma sufficient_weights_proceed_witness :
  let run := Root.set_root_weights_extrinsic Mock.host Mock.node Mock.alice
               Mock.netuids_mixed Mock.weights_mixed 0 true true false
               Mock.fresh in
  firstn 3 (events run)
  = [EvMinAllowedWeights 0 (Returned 1%Z);
     EvMaxWeightLimit 0 (Returned (WeightUtils.f32 1 0));
     EvNormalizeMaxWeight Mock.weights_mixed (WeightUtils.f32 1 0)
       (WeightUtils.normalize_max_weight Mock.weights_mixed
          (WeightUtils.f32 1 0))].
Proof.
  intros run.
  apply (sufficient_weights_proceed Mock.chain Mock.host Mock.node
           Mock.alice Mock.netuids_mixed Mock.weights_mixed 0%Z
           true true false Mock.fresh 1%Z (WeightUtils.f32 1 0)).
  - reflexivity.
  - vm_compute. tauto.
  - vm_compute. tauto.
  - vm_compute. discriminate.
Defined.

(** ** [ttl_set_weights_extrinsic] at its edges *)

(** X12. With a [ttl] of zero or less the guard never lets the worker
    finish: whatever time the worker needs, it is terminated and the
    call returns [False]. *)
Theorem ttl_nonpositive_times_out (St : Type) (host : Host St)
  (basednode : Basednode St) (w : wallet) (netuid : Z) (uids : LongTensor)
  (weights : FloatTensor) (version_key : Z) (wfi wff prompt : bool)
  (ttl : Z) (s : St) (time : option nat) :
  (ttl <= 0)%Z ->
  exists p,
    SetWeights.ttl_set_weights_extrinsic host basednode w netuid uids
      weights version_key wfi wff prompt ttl s time
    = Some (false, p, [Multiprocessing.PStart;
                       Multiprocessing.PJoin (Some ttl);
                       Multiprocessing.PIsAlive true;
                       Multiprocessing.PTerminate;
                       Multiprocessing.PJoin None])
    /\ Multiprocessing.state p
       = Multiprocessing.Joined Multiprocessing.Killed.
Proof.
  intros Httl. rewrite ttl_guard_run.
  assert (Hout : Multiprocessing.ends_within time ttl = false).
  { destruct time as [d|]; unfold Multiprocessing.ends_within;
      [apply Z.ltb_ge; lia | reflexivity]. }
  rewrite Hout. eexists. split; reflexivity.
Qed.

(** A worker that would need no time at all, under a ttl of zero. *)
Lemma ttl_nonpositive_times_out_witness :
  guard_value
    (SetWeights.ttl_set_weights_extrinsic Mock.host Mock.node Mock.alice 1
       Mock.netuids3 Mock.weights3 0 true true false 0 Mock.fresh
       (Some 0%nat))
  = Some false.
Proof.
  destruct (ttl_nonpositive_times_out Mock.chain Mock.host Mock.node
              Mock.alice 1%Z Mock.netuids3 Mock.weights3 0%Z
              true true false 0%Z Mock.fresh (Some 0%nat))
    as (p & Hrun & _).
  - lia.
  - rewrite Hrun. reflexivity.
Defined.

(** X13. A longer [ttl] never turns a completed call into a timeout:
    if the guard returns [True] under [ttl], it returns [True] under any
    [ttl'] >= [ttl] for the same worker; and if it returns [False]
    under [ttl'], it returns [False] under any shorter [ttl]. *)
Theorem ttl_monotone (St : Type) (host : Host St)
  (basednode : Basednode St) (w : wallet) (netuid : Z) (uids : LongTensor)
  (weights : FloatTensor) (version_key : Z) (wfi wff prompt : bool)
  (ttl ttl' : Z) (s : St) (time : option nat) :
  (ttl <= ttl')%Z ->
  let guard := fun t =>
    guard_value
      (SetWeights.ttl_set_weights_extrinsic host basednode w netuid uids
         weights version_key wfi wff prompt t s time) in
  (guard ttl = Some true -> guard ttl' = Some true)
  /\ (guard ttl' = Some false -> guard ttl = Some false).
Proof.
  intros Hle guard. subst guard. cbv beta.
  rewrite !ttl_guard_run.
  destruct time as [d|]; unfold Multiprocessing.ends_within.
  - destruct (Z.of_nat d <? 1000 * ttl)%Z eqn:H1;
      destruct (Z.of_nat d <? 1000 * ttl')%Z eqn:H2; cbn;
      split; intros H; try reflexivity; try discriminate H.
    + apply Z.ltb_lt in H1. apply Z.ltb_ge in H2. lia.
    + apply Z.ltb_lt in H1. apply Z.ltb_ge in H2. lia.
  - split; intros H; [discriminate H | reflexivity].
Qed.

Lemma ttl_monotone_witness :
  guard_value
    (SetWeights.ttl_set_weights_extrinsic Mock.host Mock.node Mock.alice 1
       Mock.netuids3 Mock.weights3 0 true true false 100 Mock.fresh
       (Some 500%nat))
  = Some true
  /\ guard_value
       (SetWeights.ttl_set_weights_extrinsic Mock.host Mock.node Mock.alice
          1 Mock.netuids3 Mock.weights3 0 true true false 1 Mock.fresh
          (Some 2000%nat))
     = Some false.
Proof.
  split.
  - apply (proj1 (ttl_monotone Mock.chain Mock.host Mock.node Mock.alice
                    1%Z Mock.netuids3 Mock.weights3 0%Z true true false
                    1%Z 100%Z Mock.fresh (Some 500%nat) ltac:(lia))).
    reflexivity.
  - apply (proj2 (ttl_monotone Mock.chain Mock.host Mock.node Mock.alice
                    1%Z Mock.netuids3 Mock.weights3 0%Z true true false
                    1%Z 2%Z Mock.fresh (Some 2000%nat) ltac:(lia))).
    reflexivity.
Defined.

(** X14. The worker opens its own connection to the endpoint of the
    [basednode] it is given; when that fails in time, the worker raises
    without having encoded or submitted anything, and the guard still
    returns [True]. *)
Theorem ttl_true_without_submission (St : Type) (host : Host St)
  (basednode : Basednode St) (w : wallet) (netuid : Z) (uids : LongTensor)
  (weights : FloatTensor) (version_key : Z) (wfi wff prompt : bool)
  (ttl : Z) (s s' : St) (d : nat) (e : exn) :
  (Z.of_nat d < 1000 * ttl)%Z ->
  basedai_basednode host (chain_endpoint basednode) s = (Raised e, s') ->
  exists p worker,
    SetWeights.ttl_set_weights_extrinsic host basednode w netuid uids
      weights version_key wfi wff prompt ttl s (Some d)
    = Some (true, p, [Multiprocessing.PStart;
                      Multiprocessing.PJoin (Some ttl);
                      Multiprocessing.PIsAlive false])
    /\ Multiprocessing.state p
       = Multiprocessing.Joined (Multiprocessing.Completed worker)
    /\ result worker = Raised e
    /\ events worker = [EvConnect (chain_endpoint basednode) (Raised e)].
Proof.
  intros Hd Hconnect.
  rewrite ttl_guard_run, (ends_within_lt d ttl Hd).
  do 2 eexists. split; [reflexivity|]. split; [reflexivity|].
  unfold_run. rewrite Hconnect. split; reflexivity.
Qed.

(** No endpoint answers. *)
Lemma ttl_true_without_submission_witness :
  let isolated : Host Mock.chain :=
    {| personalkey := personalkey Mock.host;
       Confirm_ask := Confirm_ask Mock.host;
       basedai_basednode := fun _ c => (Raised Mock.unreachable, c);
       normalize_max_weight := normalize_max_weight Mock.host;
       convert_weights_and_uids_for_emit :=
         convert_weights_and_uids_for_emit Mock.host |} in
  guard_value
    (SetWeights.ttl_set_weights_extrinsic isolated Mock.node Mock.alice 1
       Mock.netuids3 Mock.weights3 0 true true false 1 Mock.fresh
       (Some 500%nat))
  = Some true.
Proof.
  intros isolated.
  destruct (ttl_true_without_submission Mock.chain isolated Mock.node
              Mock.alice 1%Z Mock.netuids3 Mock.weights3 0%Z
              true true false 1%Z Mock.fresh Mock.fresh 500%nat
              Mock.unreachable)
    as (p & worker & Hrun & _).
  - reflexivity.
  - reflexivity.
  - rewrite Hrun. reflexivity.
Defined.

(** ** What the user is asked to confirm *)

(** X16. In [set_weights_extrinsic] the prompt shows the encoder's
    output, which is what a submission then carries; in
    [set_root_weights_extrinsic] it shows all the caller's netuids with
    the normalizer's output on the caller's weights and the chain's
    limit. *)
Theorem prompt_contents (St : Type) (host : Host St) :
  (forall endpoint w netuid uids weights version_key wfi wff prompt s q o,
      let run := SetWeights.set_weights_extrinsic host endpoint w netuid
                   uids weights version_key wfi wff prompt s in
      In (EvConfirm q o) (events run) ->
      exists u v,
        convert_weights_and_uids_for_emit host uids weights = Returned (u, v)
        /\ q = AskSetWeights v u
        /\ (forall n u' v' k f i o',
               In (EvDoSetWeights n u' v' k f i o') (events run) ->
               u' = u /\ v' = v))
  /\ (forall basednode w netuids weights version_key wfi wff prompt s q o,
         let run := Root.set_root_weights_extrinsic host basednode w netuids
                      weights version_key wfi wff prompt s in
         In (EvConfirm q o) (events run) ->
         exists limit formatted,
           In (EvMaxWeightLimit 0 (Returned limit)) (events run)
           /\ normalize_max_weight host weights limit = Returned formatted
           /\ q = AskSetRootWeights formatted netuids).
Proof.
  split; intros; subst run; revert H; run_cases; intros Hin;
    in_cases; subst.
  all: try solve [do 2 eexists; split; [reflexivity|];
                  split; [reflexivity|];
                  intros n u' v' k f i o' Hs; cbn in Hs; in_cases;
                  try discriminate; subst; split; reflexivity].
  all: do 2 eexists;
    (split; [in_solve | split; [first [eassumption | reflexivity]
                                | reflexivity]]).
Qed.

Lemma prompt_contents_witness :
  let asking := Mock.with_answers Mock.fresh [true] in
  (exists u v,
      WeightUtils.convert_weights_and_uids_for_emit Mock.netuids3
        Mock.weights3 = Returned (u, v)
      /\ AskSetWeights [21845; 65535; 0]%Z [10; 20; 30]%Z
         = AskSetWeights v u
      /\ (forall n u' v' k f i o',
             In (EvDoSetWeights n u' v' k f i o')
                (events (SetWeights.set_weights_extrinsic Mock.host
                           "ws://127.0.0.1:9944" Mock.alice 1 Mock.netuids3
                           Mock.weights3 0 true true true asking)) ->
             u' = u /\ v' = v)).
Proof.
  intros asking.
  destruct (prompt_contents Mock.chain Mock.host) as (Hset & _).
  apply (Hset "ws://127.0.0.1:9944"%string Mock.alice 1%Z Mock.netuids3
           Mock.weights3 0%Z true true true asking
           (AskSetWeights [21845; 65535; 0]%Z [10; 20; 30]%Z)
           (Returned true)).
  vm_compute. tauto.
Defined.

Lemma weights_call_bounds_witness :
  let declining := Mock.with_answers Mock.fresh [false] in
  let run := Root.set_root_weights_extrinsic Mock.host Mock.node Mock.alice
               Mock.netuids3 Mock.weights3 0 true true true declining in
  (submissions (events run) <= 1)%nat
  /\ (prompts (events run) <= 1)%nat
  /\ ~ In (EvConvertForEmit Mock.netuids3 Mock.weights3
             (WeightUtils.convert_weights_and_uids_for_emit Mock.netuids3
                Mock.weights3)) (events run).
Proof.
  intros declining run.
  destruct (weights_call_bounds Mock.chain Mock.host) as (_ & Hroot).
  destruct (Hroot Mock.node Mock.alice Mock.netuids3 Mock.weights3 0%Z
              true true true declining) as (Hsub & Hprompt & Hencoder).
  split; [exact Hsub | split; [exact Hprompt|]].
  apply (Hencoder
           (AskSetRootWeights
              [S754_finite false 11184811 (-25);
               S754_finite false 8388608 (-23); S754_zero false]
              Mock.netuids3)).
  vm_compute. tauto.
Defined.

(** ** Where the normalizer's output goes *)

(** A run that stopped early, or two runs that went the same way. *)
Ltac same_run :=
  split; [reflexivity | split; [reflexivity | split; [reflexivity|]]];
  let u := fresh "u" in
  let x := fresh "x" in
  let o := fresh "o" in
  let Hin := fresh "Hin" in
  intros u x o Hin; cbn in Hin; in_cases;
  first [discriminate | subst; split; reflexivity].

(** X15. In [set_root_weights_extrinsic] the output of
    [normalize_max_weight] goes to the console line and into the prompt
    and nowhere else.  Run the flow with another normalizer: as long as
    neither normalizer raises, and the user's answer does not depend on
    the weights shown, the two runs return the same value, leave the
    same state and make the same calls with the same arguments and
    outcomes, up to the normalizer's own return value, the "Raw Weights
    -> Normalized weights" line and the text of the prompt.  The encoder
    in particular is given the caller's netuids and weights as they
    came. *)
Theorem normalizer_output_only_displayed (St : Type) (host : Host St)
  (normalize' : FloatTensor -> float32 -> outcome FloatTensor)
  (basednode : Basednode St) (w : wallet) (netuids : LongTensor)
  (weights : FloatTensor) (version_key : Z) (wfi wff prompt : bool) (s : St) :
  let run := Root.set_root_weights_extrinsic host basednode w netuids
               weights version_key wfi wff prompt s in
  let run' := Root.set_root_weights_extrinsic
                (with_normalizer host normalize') basednode w netuids
                weights version_key wfi wff prompt s in
  (forall x limit e,
      ~ In (EvNormalizeMaxWeight x limit (Raised e)) (events run)) ->
  (forall x limit e,
      ~ In (EvNormalizeMaxWeight x limit (Raised e)) (events run')) ->
  (prompt = true ->
   forall formatted formatted' n c,
     Confirm_ask host (AskSetRootWeights formatted n) c
     = Confirm_ask host (AskSetRootWeights formatted' n) c) ->
  result run' = result run
  /\ final run' = final run
  /\ map hide_formatted (events run') = map hide_formatted (events run)
  /\ (forall u x o, In (EvConvertForEmit u x o) (events run) ->
                    u = netuids /\ x = weights).
Proof.
  intros run run'. subst run run'. unfold with_normalizer.
  unfold_run.
  cbn [normalize_max_weight Confirm_ask convert_weights_and_uids_for_emit].
  cbv [numel]. rewrite index_select_weights.
  call_case (min_allowed_weights basednode 0 s); [|intros; same_run].
  call_case (max_weight_limit basednode 0 s0); [|intros; same_run].
  pure_case (index_select netuids (argwhere_gt0 weights));
    [|intros; same_run].
  destruct (Z.of_nat (List.length (filter gt0 weights)) <? a)%Z; cbn;
    [intros; same_run|].
  destruct (normalize_max_weight host weights a0) as [formatted|e] eqn:Hn;
    cbn.
  2:{ intros Hr _ _. exfalso. eapply Hr. pick_event. }
  destruct (normalize' weights a0) as [formatted'|e'] eqn:Hn'; cbn.
  2:{ intros _ Hr' _. exfalso. eapply Hr'. pick_event. }
  intros _ _ Hask. destruct prompt; cbn.
  - rewrite (Hask eq_refl formatted' formatted netuids s1).
    repeat run_step; same_run.
  - repeat run_step; same_run.
Qed.

(** The flow with the normalizer replaced by one that returns its
    input, the user asked and agreeing. *)
Lemma normalizer_output_only_displayed_witness :
  let keep := fun (x : FloatTensor) (_ : float32) => Returned x in
  let asking := Mock.with_answers Mock.fresh [true] in
  let run := Root.set_root_weights_extrinsic Mock.host Mock.node Mock.alice
               Mock.netuids3 Mock.weights3 0 true true true asking in
  let run' := Root.set_root_weights_extrinsic
                (with_normalizer Mock.host keep) Mock.node Mock.alice
                Mock.netuids3 Mock.weights3 0 true true true asking in
  result run' = result run
  /\ final run' = final run
  /\ map hide_formatted (events run') = map hide_formatted (events run)
  /\ events run' <> events run.
Proof.
  intros keep asking run run'.
  destruct (normalizer_output_only_displayed Mock.chain Mock.host keep
              Mock.node Mock.alice Mock.netuids3 Mock.weights3 0%Z
              true true true asking)
    as (Hresult & Hfinal & Hevents & _).
  - intros x limit e Hin. vm_compute in Hin. in_cases; discriminate.
  - intros x limit e Hin. vm_compute in Hin. in_cases; discriminate.
  - intros _ formatted formatted' n c. reflexivity.
  - split; [exact Hresult | split; [exact Hfinal | split; [exact Hevents|]]].
    intros Heq. vm_compute in Heq. discriminate Heq.
Defined.
